(** * VentoExpert v2: protocol codec, retrying transport and poll cycle

    A shallow embedding of [custom_components/ventoexpertv2/sensor.py]:
    the checksum, the request builder, the response parser, the retrying
    UDP request and the coordinator's update step, followed by the
    properties of the specification that concern them.

    Conventions of the embedding:
    - a Python [int] is a [Z]; a [bytes] object is a [list byte], and reading
      an element yields the [int] given by [int_of];
    - a Python [str] is the list of its code points;
    - a [dict] with [int] keys is a [gmap Z value];
    - a call that may raise returns an [outcome]; the [while] loop of the
      parser takes fuel and answers [NoFuel] when it is used up;
    - the network is a [world]: what each exchange of datagrams will yield,
      how many exchanges have been made, and the log of sends and sleeps.
    Calls to the logger have no bearing on any result and are left out. *)

From Stdlib Require Import ZArith NArith QArith Lia List Ascii String.
From Stdlib.Strings Require Import Byte.
From stdpp Require Import base option list gmap.

Open Scope Z_scope.

(* ===================================================================== *)
(** * Python objects                                                      *)
(* ===================================================================== *)

(** Exceptions that the modelled code can meet.  [UpdateFailed] carries its
    message; the message built by the f-string [f"...{err}"] keeps the
    exception it formats. *)
Inductive exn : Type :=
| UnicodeEncodeError
| ValueError
| IndexError
| OSError
| UpdateFailed (msg : text)
with text : Type :=
| Plain (s : string)
| Formatted (prefix : string) (err : exn).

Inductive outcome (A : Type) : Type :=
| Returned (a : A)
| Raised (e : exn)
| NoFuel.
Arguments Returned {A} a.
Arguments Raised {A} e.
Arguments NoFuel {A}.

#[global] Instance outcome_ret : MRet outcome := fun _ a => Returned a.
#[global] Instance outcome_bind : MBind outcome := fun _ _ k o =>
  match o with
  | Returned a => k a
  | Raised e => Raised e
  | NoFuel => NoFuel
  end.

#[global] Instance outcome_fmap : FMap outcome := fun _ _ f o =>
  match o with
  | Returned a => Returned (f a)
  | Raised e => Raised e
  | NoFuel => NoFuel
  end.

Abbreviation bytes := (list byte).
Abbreviation str := (list N).

(** The value stored under a parameter id: an [int] or a tuple of [int]s. *)
Inductive value : Type :=
| VInt (n : Z)
| VTuple (items : list Z).

Definition len {A : Type} (l : list A) : Z := Z.of_nat (length l).

(** [data[i]] read as an [int]. *)
Definition int_of (b : byte) : Z := Z.of_N (Byte.to_N b).

(** One element of [bytes([...])]: an [int] outside [range(256)] raises. *)
Definition byte_of_int (n : Z) : outcome byte :=
  if (0 <=? n) && (n <? 256) then
    match Byte.of_N (Z.to_N n) with
    | Some b => Returned b
    | None => Raised ValueError
    end
  else Raised ValueError.

(** [bytes(ints)] *)
Fixpoint bytes_of_ints (ints : list Z) : outcome bytes :=
  match ints with
  | [] => mret []
  | n :: rest =>
      b ← byte_of_int n;
      bs ← bytes_of_ints rest;
      mret (b :: bs)
  end.

(** A string literal as a [str]. *)
Definition str_lit (s : string) : str :=
  map N_of_ascii (list_ascii_of_string s).

Definition encode_char (c : N) : outcome byte :=
  if (c <? 128)%N then
    match Byte.of_N c with
    | Some b => Returned b
    | None => Raised UnicodeEncodeError
    end
  else Raised UnicodeEncodeError.

(** [s.encode("ascii")] *)
Fixpoint encode_ascii (s : str) : outcome bytes :=
  match s with
  | [] => mret []
  | c :: rest =>
      b ← encode_char c;
      bs ← encode_ascii rest;
      mret (b :: bs)
  end.

(** [b.ljust(width, fill)]: padding on the right, and [b] itself when it is
    already [width] long or longer. *)
Definition ljust (width : Z) (fill : byte) (b : bytes) : bytes :=
  b ++ replicate (Z.to_nat (width - len b)) fill.

(** [sum(packet)] *)
Definition sum (packet : bytes) : Z :=
  fold_left (fun acc b => acc + int_of b) packet 0.

(** [bool(data)] for a [bytes] object *)
Definition truthy (data : bytes) : bool :=
  match data with
  | [] => false
  | _ :: _ => true
  end.

(** [data[i]], with Python's negative indices. *)
Definition getitem (data : bytes) (i : Z) : outcome Z :=
  let j := if i <? 0 then i + len data else i in
  if (0 <=? j) && (j <? len data) then
    match data !! Z.to_nat j with
    | Some b => Returned (int_of b)
    | None => Raised IndexError
    end
  else Raised IndexError.

(** [data[lo:hi]]: bounds are clamped, a slice never raises. *)
Definition slice (data : bytes) (lo hi : Z) : bytes :=
  let clamp i := if i <? 0 then Z.max 0 (i + len data) else Z.min i (len data) in
  let l := clamp lo in
  let h := clamp hi in
  take (Z.to_nat (h - l)) (drop (Z.to_nat l) data).

(** [data.index(x)]: position of the first [x], [ValueError] without one. *)
Fixpoint index_from (data : bytes) (x : Z) (i : Z) : outcome Z :=
  match data with
  | [] => Raised ValueError
  | b :: rest => if int_of b =? x then Returned i else index_from rest x (i + 1)
  end.

Definition index (data : bytes) (x : Z) : outcome Z := index_from data x 0.

(* ===================================================================== *)
(** * Request framing                                                     *)
(* ===================================================================== *)

Definition ALL_PARAMS : list Z :=
  [0x0001; 0x0002; 0x0006; 0x0019; 0x0025; 0x004A; 0x004B; 0x00B7].

Definition calc_checksum (packet : bytes) : outcome bytes :=
  let checksum := Z.land (sum packet) 0xFFFF in
  bytes_of_ints [Z.land checksum 0xFF; Z.land (Z.shiftr checksum 8) 0xFF].

(** Body of [for param in params] in [build_read_packet]. *)
Definition data_block_step (data_block : bytes) (param : Z) : outcome bytes :=
  let high := Z.land (Z.shiftr param 8) 0xFF in
  let low := Z.land param 0xFF in
  data_block ←
    (if high >? 0 then
       escape ← bytes_of_ints [0xFF; high];
       mret (data_block ++ escape)
     else mret data_block);
  last ← bytes_of_ints [low];
  mret (data_block ++ last).

(** The loop [for param in params], started on a given [data_block]. *)
Fixpoint data_block_loop (params : list Z) (data_block : bytes) : outcome bytes :=
  match params with
  | [] => mret data_block
  | param :: rest =>
      data_block ← data_block_step data_block param;
      data_block_loop rest data_block
  end.

Definition build_read_packet (device_id password : str) (params : list Z)
  : outcome bytes :=
  start ← bytes_of_ints [0xFD; 0xFD];
  type_byte ← bytes_of_ints [0x02];
  size_id ← bytes_of_ints [0x10];
  id_bytes ← (encoded ← encode_ascii device_id; mret (ljust 16 x00 encoded));
  size_pwd ← bytes_of_ints [0x04];
  pwd_bytes ← (encoded ← encode_ascii password; mret (ljust 4 x00 encoded));
  func ← bytes_of_ints [0x01];
  data_block ← data_block_loop params [];
  let body :=
    type_byte ++ size_id ++ id_bytes ++ size_pwd ++ pwd_bytes ++ func ++ data_block in
  checksum ← calc_checksum body;
  mret (start ++ body ++ checksum).

(* ===================================================================== *)
(** * Response parsing                                                    *)
(* ===================================================================== *)

(** The loop [while pos < len(data) - 2] of [parse_ventoexpert_response].
    A [break] leaves the loop for the [return result] that follows it. *)
Fixpoint parse_loop (fuel : nat) (data : bytes) (pos : Z) (result : gmap Z value)
  : outcome (gmap Z value) :=
  match fuel with
  | O => NoFuel
  | S fuel =>
      if pos <? len data - 2 then
        param ← getitem data pos;
        let pos := pos + 1 in
        if param =? 0x64 then
          if pos + 3 >? len data then mret result
          else
            let value := VTuple (int_of <$> slice data pos (pos + 3)) in
            parse_loop fuel data (pos + 3) (<[param := value]> result)
        else if (param =? 0x4A) || (param =? 0x4B) then
          if pos + 2 >? len data then mret result
          else
            lo ← getitem data pos;
            hi ← getitem data (pos + 1);
            let value := VInt (Z.lor lo (Z.shiftl hi 8)) in
            parse_loop fuel data (pos + 2) (<[param := value]> result)
        else
          if pos >=? len data then mret result
          else
            b ← getitem data pos;
            let value := VInt b in
            parse_loop fuel data (pos + 1) (<[param := value]> result)
      else mret result
  end.

Definition parse_ventoexpert_response (data : bytes) : outcome (gmap Z value) :=
  if negb (truthy data) || (len data <? 20) then mret ∅
  else
    match index data 0x06 with
    | Raised ValueError => mret ∅
    | Raised e => Raised e
    | NoFuel => NoFuel
    | Returned func_index =>
        let pos := func_index + 1 in
        parse_loop (length data) data pos ∅
    end.

(* ===================================================================== *)
(** * Transport and retries                                               *)
(* ===================================================================== *)

(** What one call of [_send_udp] meets on the network. *)
Inductive exchange : Type :=
| NoSocket                    (* [socket.socket] or [settimeout] raises *)
| SocketError                 (* [sendto] or [recvfrom] raises, not a timeout *)
| TimedOut                    (* [recvfrom] raises [socket.timeout] *)
| Datagram (payload : bytes). (* [recvfrom] receives a datagram *)

Inductive event : Type :=
| Call_send_udp (host : str) (port : Z) (packet : bytes)
| Sleep (seconds : Q).

(** [network k] is what the [k]-th call of [_send_udp] meets; [exchanges]
    counts the calls made so far and [events] logs calls and sleeps. *)
Record world : Type := World {
  network : nat -> exchange;
  exchanges : nat;
  events : list event
}.

Definition io (A : Type) : Type := world -> outcome A * world.

#[global] Instance io_ret : MRet io := fun _ a w => (Returned a, w).
#[global] Instance io_bind : MBind io := fun _ _ k c w =>
  match c w with
  | (Returned a, w') => k a w'
  | (Raised e, w') => (Raised e, w')
  | (NoFuel, w') => (NoFuel, w')
  end.

(** A call without effect on the world, run inside [io]. *)
Definition pure {A : Type} (o : outcome A) : io A := fun w => (o, w).

Definition raise {A : Type} (e : exn) : io A := fun w => (Raised e, w).

(** [await asyncio.sleep(seconds)] *)
Definition sleep (seconds : Q) : io unit := fun w =>
  (Returned tt,
   World (network w) (exchanges w) (events w ++ [Sleep seconds])).

(** [recvfrom(1024)] keeps at most 1024 bytes of the datagram.  Outside the
    [try], a failure to open the socket propagates to the caller. *)
Definition _send_udp (host : str) (port : Z) (packet : bytes) : io bytes := fun w =>
  let w' := World (network w) (S (exchanges w))
                  (events w ++ [Call_send_udp host port packet]) in
  match network w (exchanges w) with
  | NoSocket => (Raised OSError, w')
  | Datagram payload => (Returned (take 1024 payload), w')
  | TimedOut => (Returned [], w')
  | SocketError => (Returned [], w')
  end.

(** [for attempt in range(retries)], over the attempts that are left, and
    the [return b""] that follows the loop. *)
Fixpoint udp_request_loop (host : str) (port : Z) (packet : bytes) (retries : Z)
    (attempts : list Z) : io bytes :=
  match attempts with
  | [] => mret []
  | attempt :: rest =>
      data ← _send_udp host port packet;
      if truthy data then mret data
      else
        _ ← sleep (1 # 2);
        udp_request_loop host port packet retries rest
  end.

Definition udp_request (host : str) (port : Z) (packet : bytes) (retries : Z)
  : io bytes :=
  udp_request_loop host port packet retries (seqZ 0 retries).

(** The default [retries: int = 3]. *)
Definition default_retries : Z := 3.

(* ===================================================================== *)
(** * Coordinator                                                         *)
(* ===================================================================== *)

Record VentoExpertCoordinator : Type := Coordinator {
  host : str;
  port : Z;
  device_id : str;
  password : str;
  params : list Z
}.

(** The [try] block of [_async_update_data]. *)
Definition update_body (self : VentoExpertCoordinator) : io (gmap Z value) :=
  packet ← pure (build_read_packet (device_id self) (password self) (params self));
  data ← udp_request (host self) (port self) packet default_retries;
  if negb (truthy data) then
    raise (UpdateFailed (Plain "Keine Antwort vom Gerät"))
  else
    parsed ← pure (parse_ventoexpert_response data);
    mret parsed.

(** [except Exception as err] catches every exception of the [try] block,
    the [UpdateFailed] raised there included, and raises [UpdateFailed]. *)
Definition _async_update_data (self : VentoExpertCoordinator)
  : io (gmap Z value) := fun w =>
  match update_body self w with
  | (Raised err, w') =>
      (Raised (UpdateFailed (Formatted "Fehler beim Abrufen der Daten: " err)), w')
  | other => other
  end.

(* ===================================================================== *)
(** * Sensors                                                             *)
(* ===================================================================== *)

(** An object that a sensor can hand to the platform: [None], an [int], a
    tuple of [int]s or a [str]. *)
Inductive pyobj : Type :=
| PyNone
| PyInt (n : Z)
| PyTuple (items : list Z)
| PyStr (s : string).

Definition obj_of_value (v : value) : pyobj :=
  match v with
  | VInt n => PyInt n
  | VTuple items => PyTuple items
  end.

(** [data.get(key)] on the mapping returned by the parser. *)
Definition data_get (data : gmap Z value) (key : Z) : pyobj :=
  match data !! key with
  | Some v => obj_of_value v
  | None => PyNone
  end.

(** [mapping.get(raw, default)] on a [dict] with [int] keys and [str]
    values: [None] and tuples are hashable and are not keys of it. *)
Definition mapping_get (mapping : gmap Z string) (raw : pyobj) (default : string)
  : string :=
  match raw with
  | PyInt n =>
      match mapping !! n with
      | Some s => s
      | None => default
      end
  | _ => default
  end.

(** The sensor classes; the icon, unit and state class that they set are
    constants of presentation and are left out. *)
Inductive sensor_class : Type :=
| VentoExpertBaseSensor
| VentoExpertPowerSensor
| VentoExpertModeSensor
| VentoExpertHumiditySensor
| VentoExpertFanSensor
| VentoExpertStageSensor
| VentoExpertBoostSensor.

Record sensor : Type := Sensor {
  sensor_type : sensor_class;
  _attr_name : string;
  param : Z
}.

(** [_format_value], by class; the classes without one of their own inherit
    that of the base class. *)
Definition _format_value (cls : sensor_class) (raw : pyobj) : pyobj :=
  match cls with
  | VentoExpertPowerSensor =>
      let mapping : gmap Z string :=
        list_to_map [(0, "Aus"); (1, "Ein"); (2, "Invertieren")]%string in
      PyStr (mapping_get mapping raw "Unbekannt")
  | VentoExpertModeSensor =>
      let mapping : gmap Z string :=
        list_to_map [(0, "Lüftung"); (1, "Wärmerückgewinnung"); (2, "Zuluft")]%string in
      PyStr (mapping_get mapping raw "Unbekannt")
  | VentoExpertStageSensor =>
      let mapping : gmap Z string :=
        list_to_map [(1, "Lüftungsstufe 1"); (2, "Lüftungsstufe 2");
                     (3, "Lüftungsstufe 3"); (255, "Manuell")]%string in
      PyStr (mapping_get mapping raw "Unbekannt")
  | VentoExpertBoostSensor =>
      let mapping : gmap Z string :=
        list_to_map [(0, "Aus"); (1, "Ein")]%string in
      PyStr (mapping_get mapping raw "Unbekannt")
  | VentoExpertBaseSensor | VentoExpertHumiditySensor | VentoExpertFanSensor =>
      raw
  end.

(** The property [available], on the data held by the coordinator. *)
Definition available (self : sensor) (data : gmap Z value) : bool :=
  bool_decide (is_Some (data !! param self)).

(** The property [native_value]. *)
Definition native_value (self : sensor) (data : gmap Z value) : pyobj :=
  _format_value (sensor_type self) (data_get data (param self)).

(** The sensors that [async_setup_entry] creates. *)
Definition sensors : list sensor :=
  [ Sensor VentoExpertPowerSensor "VentoExpert Betrieb" 0x0001;
    Sensor VentoExpertStageSensor "VentoExpert Lüftungsstufe" 0x0002;
    Sensor VentoExpertBoostSensor "VentoExpert Boost" 0x0006;
    Sensor VentoExpertModeSensor "VentoExpert Betriebsart" 0x00B7;
    Sensor VentoExpertHumiditySensor "VentoExpert Feuchte Sollwert" 0x0019;
    Sensor VentoExpertHumiditySensor "VentoExpert Feuchte Istwert" 0x0025;
    Sensor VentoExpertFanSensor "VentoExpert Ventilator 1" 0x004A;
    Sensor VentoExpertFanSensor "VentoExpert Ventilator 2" 0x004B ]%string.

(* ===================================================================== *)
(** * Definitions for the statements: the request frame                 *)
(* ===================================================================== *)

(** The byte whose [int] is [n], for [n] in [range(256)]. *)
Definition the_byte (n : Z) : byte :=
  default x00 (Byte.of_N (Z.to_N n)).

(** Strings all of whose characters are ASCII. *)
Definition is_ascii (s : str) : Prop := Forall (fun c => (c < 128)%N) s.

(** The bytes of an ASCII string, one per character. *)
Definition ascii_bytes (s : str) : bytes := map (fun c => the_byte (Z.of_N c)) s.

(** One parameter id as the loop of [build_read_packet] appends it. *)
Definition encode_param (param : Z) : bytes :=
  let high := Z.land (Z.shiftr param 8) 0xFF in
  let low := Z.land param 0xFF in
  if high >? 0 then [xff; the_byte high; the_byte low] else [the_byte low].

(** A 16-bit unsigned parameter id. *)
Definition is_param_id (param : Z) : Prop := 0 <= param < 65536.

(** The entry of one parameter id in the words of the specification: the
    low byte alone when the high byte is zero, else the escape byte, the
    high byte and the low byte. *)
Definition param_entry (param : Z) : bytes :=
  let high := param / 256 in
  let low := param mod 256 in
  if high =? 0 then [the_byte low] else [xff; the_byte high; the_byte low].

Ltac ascii_literal :=
  unfold is_ascii; repeat (constructor; [reflexivity|]); constructor.

(** A field cut or zero-padded to exactly [width] bytes. *)
Definition fixed_width (width : Z) (b : bytes) : bytes :=
  take (Z.to_nat width) (ljust width x00 b).

(** The frame that a builder with fields of fixed width would return. *)
Definition fixed_width_frame (device_id password : str) (params : list Z)
    (frame : bytes) : Prop :=
  exists lo hi,
    frame = [xfd; xfd; x02; x10] ++ fixed_width 16 (ascii_bytes device_id)
            ++ [x04] ++ fixed_width 4 (ascii_bytes password)
            ++ [x01] ++ flat_map encode_param params ++ [lo; hi].

(* ===================================================================== *)
(** * Definitions for the statements: the response parser               *)
(* ===================================================================== *)

(** ** The fields of a frame, in the words of the specification

    [rest] is what follows the function marker.  Decoding stops when only
    the two trailing bytes remain, or when fewer bytes remain than the next
    field requires.  Otherwise one byte of parameter id is read, then its
    value: three bytes kept as a tuple for id 0x64, two bytes read low byte
    first as an integer for ids 0x4A and 0x4B, one byte for any other id. *)
Fixpoint decode_fields (rest : bytes) : list (Z * value) :=
  if Nat.leb (length rest) 2 then []
  else
    match rest with
    | [] => []
    | id :: after_id =>
        if int_of id =? 0x64 then
          match after_id with
          | a :: b :: c :: tl =>
              (int_of id, VTuple [int_of a; int_of b; int_of c]) :: decode_fields tl
          | _ => []
          end
        else if (int_of id =? 0x4A) || (int_of id =? 0x4B) then
          match after_id with
          | lo :: hi :: tl =>
              (int_of id, VInt (int_of lo + 256 * int_of hi)) :: decode_fields tl
          | _ => []
          end
        else
          match after_id with
          | a :: tl => (int_of id, VInt (int_of a)) :: decode_fields tl
          | [] => []
          end
    end.

(** Storing fields in order of appearance, as [result[param] = value] does. *)
Definition store (fields : list (Z * value)) (result : gmap Z value)
  : gmap Z value :=
  fold_left (fun m field => <[field.1 := field.2]> m) fields result.

(** A frame of 28 bytes: sixteen header bytes, the marker, the fields
    64 01 02 03, 4A 2C 01 and 01 05, and two trailing bytes. *)
Definition sample_response : bytes :=
  replicate 16 x00
  ++ [x06; x64; x01; x02; x03; x4a; x2c; x01; x01; x05; xaa; xbb].

(** A frame in which id 01 appears with value 05, then id 02, then id 01
    again with value 09. *)
Definition duplicate_response : bytes :=
  replicate 16 x00 ++ [x06; x01; x05; x02; x07; x01; x09; xaa; xbb].

(** What an entry of the returned mapping looks like: the key is one byte;
    under 0x64 the value is a tuple of three bytes, under 0x4A and 0x4B an
    integer of 16 bits, under any other key an integer of 8 bits. *)
Definition entry_fits (id : Z) (v : value) : Prop :=
  0 <= id <= 255
  /\ (id = 0x64 ->
      exists a b c, v = VTuple [a; b; c]
                    /\ 0 <= a <= 255 /\ 0 <= b <= 255 /\ 0 <= c <= 255)
  /\ (id = 0x4A \/ id = 0x4B -> exists n, v = VInt n /\ 0 <= n <= 65535)
  /\ (id <> 0x64 -> id <> 0x4A -> id <> 0x4B ->
      exists n, v = VInt n /\ 0 <= n <= 255).

(** ** Which bytes the loop reads

    The loop of the parser once more, recording each byte that it reads as a
    parameter id or as part of a value, and how it was left. *)
Inductive access : Type :=
| IdAt (pos : Z)
| ValueAt (pos : Z).

Inductive ending : Type :=
| LoopCondition (pos : Z)   (* [pos < len(data) - 2] was false *)
| Break (pos : Z).          (* a [break] was met *)

Fixpoint parse_loop_reads (fuel : nat) (data : bytes) (pos : Z)
    (result : gmap Z value) (reads : list access)
  : outcome (gmap Z value * list access * ending) :=
  match fuel with
  | O => NoFuel
  | S fuel =>
      if pos <? len data - 2 then
        param ← getitem data pos;
        let reads := reads ++ [IdAt pos] in
        let pos := pos + 1 in
        if param =? 0x64 then
          if pos + 3 >? len data then mret (result, reads, Break pos)
          else
            let value := VTuple (int_of <$> slice data pos (pos + 3)) in
            let reads := reads ++ [ValueAt pos; ValueAt (pos + 1); ValueAt (pos + 2)] in
            parse_loop_reads fuel data (pos + 3) (<[param := value]> result) reads
        else if (param =? 0x4A) || (param =? 0x4B) then
          if pos + 2 >? len data then mret (result, reads, Break pos)
          else
            lo ← getitem data pos;
            hi ← getitem data (pos + 1);
            let value := VInt (Z.lor lo (Z.shiftl hi 8)) in
            let reads := reads ++ [ValueAt pos; ValueAt (pos + 1)] in
            parse_loop_reads fuel data (pos + 2) (<[param := value]> result) reads
        else
          if pos >=? len data then mret (result, reads, Break pos)
          else
            b ← getitem data pos;
            let value := VInt b in
            let reads := reads ++ [ValueAt pos] in
            parse_loop_reads fuel data (pos + 1) (<[param := value]> result) reads
      else mret (result, reads, LoopCondition pos)
  end.

(** [parse_ventoexpert_response] with the recording loop; no ending is
    reported when the loop is not entered. *)
Definition parse_ventoexpert_response_reads (data : bytes)
  : outcome (gmap Z value * list access * option ending) :=
  if negb (truthy data) || (len data <? 20) then mret (∅, [], None)
  else
    match index data 0x06 with
    | Raised ValueError => mret (∅, [], None)
    | Raised e => Raised e
    | NoFuel => NoFuel
    | Returned func_index =>
        let pos := func_index + 1 in
        run ← parse_loop_reads (length data) data pos ∅ [];
        mret (run.1.1, run.1.2, Some run.2)
    end.

Definition position (a : access) : Z :=
  match a with
  | IdAt pos => pos
  | ValueAt pos => pos
  end.

(** No byte of the last two is read, as an id or as a value. *)
Definition trailer_untouched (data : bytes) (reads : list access) : Prop :=
  forall a, a ∈ reads -> position a < len data - 2.

(** Ids come from before the last two bytes; values from inside the data. *)
Definition access_ok (data : bytes) (a : access) : Prop :=
  match a with
  | IdAt pos => 0 <= pos < len data - 2
  | ValueAt pos => 0 <= pos < len data
  end.

(** The loop is left when at most two bytes remain, or by the [break] of
    id 0x64 when fewer than three bytes remain for its value. *)
Definition ending_ok (data : bytes) (e : ending) : Prop :=
  match e with
  | LoopCondition pos => len data - 2 <= pos <= len data
  | Break pos =>
      getitem data (pos - 1) = Returned 0x64
      /\ pos - 1 < len data - 2 /\ len data < pos + 3
  end.

(** A frame of 20 bytes whose marker is followed by id 01 and by the two
    trailing bytes AA BB. *)
Definition tight_response : bytes := replicate 16 x00 ++ [x06; x01; xaa; xbb].

(* ===================================================================== *)
(** * Definitions for the statements: retries and the poll cycle        *)
(* ===================================================================== *)

(** An exchange after which [_send_udp] returns [b""]. *)
Definition no_data (x : exchange) : Prop :=
  x = TimedOut \/ x = SocketError \/ x = Datagram [].

Definition is_call (e : event) : bool :=
  match e with
  | Call_send_udp _ _ _ => true
  | Sleep _ => false
  end.

Definition is_backoff (e : event) : bool :=
  match e with
  | Sleep seconds => Qeq_bool seconds (1 # 2)
  | Call_send_udp _ _ _ => false
  end.

(** Number of calls of [_send_udp], and of sleeps of 0.5 s, in a log. *)
Definition calls (log : list event) : nat := length (List.filter is_call log).
Definition backoffs (log : list event) : nat := length (List.filter is_backoff log).

(** The log of [n] attempts without data: each is a call of [_send_udp]
    followed by a sleep of 0.5 s. *)
Fixpoint failed_attempts (host : str) (port : Z) (packet : bytes) (n : nat)
  : list event :=
  match n with
  | O => []
  | S n =>
      Call_send_udp host port packet :: Sleep (1 # 2)
      :: failed_attempts host port packet n
  end.

(** A network on which every exchange times out. *)
Definition silent_network : nat -> exchange := fun _ => TimedOut.

(** A network on which the second exchange alone brings a datagram. *)
Definition second_try_network (payload : bytes) : nat -> exchange := fun k =>
  match k with
  | 1%nat => Datagram payload
  | _ => TimedOut
  end.

(** The coordinator that [async_setup_entry] builds from the defaults. *)
Definition default_coordinator : VentoExpertCoordinator :=
  Coordinator (str_lit "vento") 4000 (str_lit "DEFAULT_DEVICEID")
              (str_lit "1111") ALL_PARAMS.

(** A network on which every exchange brings twenty zero bytes. *)
Definition zeros_network : nat -> exchange := fun _ => Datagram (replicate 20 x00).

(** The request frame of the default coordinator. *)
Definition default_packet : bytes :=
  Eval vm_compute in
    match build_read_packet (str_lit "DEFAULT_DEVICEID") (str_lit "1111") ALL_PARAMS with
    | Returned packet => packet
    | _ => []
    end.

(* ===================================================================== *)
(** * Definitions for the further properties                              *)
(* ===================================================================== *)

(** The bytes of one field of a response: the id, then the value on three
    bytes for a tuple, on two bytes low byte first under ids 0x4A and 0x4B,
    on one byte otherwise. *)
Definition field_bytes (field : Z * value) : bytes :=
  the_byte field.1 ::
  match field.2 with
  | VTuple items => the_byte <$> items
  | VInt n =>
      if (field.1 =? 0x4A) || (field.1 =? 0x4B)
      then [the_byte (n mod 256); the_byte (n / 256)]
      else [the_byte n]
  end.

(** An event of a request towards [host] and [port] with [packet]: a call
    of [_send_udp] with exactly these, or a sleep of 0.5 s. *)
Definition request_event (host : str) (port : Z) (packet : bytes) (e : event)
  : Prop :=
  match e with
  | Call_send_udp h p pk => h = host /\ p = port /\ pk = packet
  | Sleep seconds => seconds = 1 # 2
  end.

(** A network on which the socket cannot be opened at the second exchange. *)
Definition no_socket_network : nat -> exchange := fun k =>
  match k with
  | 1%nat => NoSocket
  | _ => TimedOut
  end.

(** Three fields that fit their ids. *)
Definition sample_fields : list (Z * value) :=
  [(0x64, VTuple [1; 2; 3]); (0x4A, VInt 300); (0x01, VInt 5)].

(** A coordinator whose device id is not ASCII. *)
Definition umlaut_coordinator : VentoExpertCoordinator :=
  Coordinator (str_lit "vento") 4000 [76; 252; 102; 116]%N (str_lit "1111") ALL_PARAMS.

(** A network on which the third exchange alone brings a datagram. *)
Definition third_try_network (payload : bytes) : nat -> exchange := fun k =>
  match k with
  | 2%nat => Datagram payload
  | _ => TimedOut
  end.

(** The classes that show a text. *)
Definition is_text_class (cls : sensor_class) : bool :=
  match cls with
  | VentoExpertPowerSensor | VentoExpertModeSensor
  | VentoExpertStageSensor | VentoExpertBoostSensor => true
  | VentoExpertBaseSensor | VentoExpertHumiditySensor | VentoExpertFanSensor =>
      false
  end.

(** The texts of a class, the fallback text left out. *)
Definition labels (cls : sensor_class) : list string :=
  match cls with
  | VentoExpertPowerSensor => ["Aus"; "Ein"; "Invertieren"]
  | VentoExpertModeSensor => ["Lüftung"; "Wärmerückgewinnung"; "Zuluft"]
  | VentoExpertStageSensor =>
      ["Lüftungsstufe 1"; "Lüftungsstufe 2"; "Lüftungsstufe 3"; "Manuell"]
  | VentoExpertBoostSensor => ["Aus"; "Ein"]
  | VentoExpertBaseSensor | VentoExpertHumiditySensor | VentoExpertFanSensor => []
  end%string.

(** What a sensor of [async_setup_entry] can show: a text for the classes
    with texts, and for the others [None] or an integer, of 16 bits for the
    fan sensors and of 8 bits for the rest. *)
Definition shown_ok (self : sensor) (shown : pyobj) : Prop :=
  if is_text_class (sensor_type self) then exists s, shown = PyStr s
  else
    shown = PyNone
    \/ exists n, shown = PyInt n
                 /\ 0 <= n <= (if (param self =? 0x4A) || (param self =? 0x4B)
                               then 65535 else 255).

(* ===================================================================== *)
(** * Bytes and integers                                                  *)
(* ===================================================================== *)

Lemma int_of_range (b : byte) : 0 <= int_of b <= 255.
Proof.
  unfold int_of. pose proof (Byte.to_N_bounded b). lia.
Qed.

Lemma byte_of_N_the_byte (n : Z) :
  0 <= n < 256 -> Byte.of_N (Z.to_N n) = Some (the_byte n).
Proof.
  intros Hn. unfold the_byte.
  destruct (Byte.of_N (Z.to_N n)) as [b|] eqn:E; [reflexivity|].
  apply Byte.of_N_None_iff in E. lia.
Qed.

Lemma int_of_the_byte (n : Z) : 0 <= n < 256 -> int_of (the_byte n) = n.
Proof.
  intros Hn. pose proof (byte_of_N_the_byte n Hn) as E.
  apply Byte.to_of_N in E. unfold int_of. rewrite E. lia.
Qed.

Lemma the_byte_int_of (b : byte) : the_byte (int_of b) = b.
Proof.
  unfold the_byte, int_of. rewrite N2Z.id, Byte.of_to_N. reflexivity.
Qed.

Lemma int_of_inj (a b : byte) : int_of a = int_of b -> a = b.
Proof.
  intros E. rewrite <- (the_byte_int_of a), <- (the_byte_int_of b), E.
  reflexivity.
Qed.

Lemma byte_of_int_the_byte (n : Z) :
  0 <= n < 256 -> byte_of_int n = Returned (the_byte n).
Proof.
  intros Hn. unfold byte_of_int.
  replace ((0 <=? n) && (n <? 256)) with true by (symmetry; apply andb_true_iff; lia).
  rewrite byte_of_N_the_byte by assumption. reflexivity.
Qed.

Lemma land_255 (x : Z) : Z.land x 0xFF = x mod 256.
Proof. change 0xFF with (Z.ones 8). rewrite Z.land_ones by lia. reflexivity. Qed.

Lemma land_65535 (x : Z) : Z.land x 0xFFFF = x mod 65536.
Proof. change 0xFFFF with (Z.ones 16). rewrite Z.land_ones by lia. reflexivity. Qed.

Lemma shiftr_8 (x : Z) : Z.shiftr x 8 = x / 256.
Proof. rewrite Z.shiftr_div_pow2 by lia. reflexivity. Qed.

Lemma len_app {A : Type} (l k : list A) : len (l ++ k) = len l + len k.
Proof. unfold len. rewrite length_app. lia. Qed.

Lemma len_nonneg {A : Type} (l : list A) : 0 <= len l.
Proof. unfold len. lia. Qed.

Lemma sum_from (packet : bytes) (acc : Z) :
  fold_left (fun acc b => acc + int_of b) packet acc = acc + sum packet.
Proof.
  unfold sum. revert acc.
  induction packet as [|b packet IH]; intros acc; simpl; [lia|].
  rewrite IH, (IH (0 + int_of b)). lia.
Qed.

Lemma sum_cons (b : byte) (packet : bytes) : sum (b :: packet) = int_of b + sum packet.
Proof. unfold sum at 1. simpl. apply sum_from. Qed.

Lemma sum_nonneg (packet : bytes) : 0 <= sum packet.
Proof.
  induction packet as [|b packet IH]; [reflexivity|].
  rewrite sum_cons. pose proof (int_of_range b). lia.
Qed.

(* ===================================================================== *)
(** * The request frame                                                   *)
(* ===================================================================== *)

Lemma encode_ascii_ok (s : str) :
  is_ascii s -> encode_ascii s = Returned (ascii_bytes s).
Proof.
  induction 1 as [|c s Hc _ IH]; [reflexivity|].
  simpl. unfold encode_char.
  replace (c <? 128)%N with true by (symmetry; apply N.ltb_lt; exact Hc).
  replace c with (Z.to_N (Z.of_N c)) at 1 by apply N2Z.id.
  rewrite byte_of_N_the_byte by lia.
  simpl. rewrite IH. reflexivity.
Qed.

Lemma encode_ascii_raises (s : str) :
  ~ is_ascii s -> encode_ascii s = Raised UnicodeEncodeError.
Proof.
  induction s as [|c s IH]; intros Hs.
  - exfalso. apply Hs. constructor.
  - simpl. unfold encode_char.
    destruct (c <? 128)%N eqn:Hc; [|reflexivity].
    apply N.ltb_lt in Hc.
    destruct (Byte.of_N c); [|reflexivity].
    simpl. rewrite IH; [reflexivity|].
    intros Hs'. apply Hs. constructor; assumption.
Qed.

Lemma data_block_step_spec (data_block : bytes) (param : Z) :
  data_block_step data_block param = Returned (data_block ++ encode_param param).
Proof.
  unfold data_block_step, encode_param.
  assert (Hh : 0 <= Z.land (Z.shiftr param 8) 0xFF < 256)
    by (rewrite land_255; apply Z.mod_pos_bound; lia).
  assert (Hl : 0 <= Z.land param 0xFF < 256)
    by (rewrite land_255; apply Z.mod_pos_bound; lia).
  destruct (Z.land (Z.shiftr param 8) 0xFF >? 0); simpl.
  - rewrite !byte_of_int_the_byte by assumption. simpl.
    rewrite <- app_assoc. reflexivity.
  - rewrite !byte_of_int_the_byte by assumption. reflexivity.
Qed.

Lemma data_block_loop_spec (params : list Z) (data_block : bytes) :
  data_block_loop params data_block
  = Returned (data_block ++ flat_map encode_param params).
Proof.
  revert data_block.
  induction params as [|param rest IH]; intros data_block; simpl.
  - rewrite app_nil_r. reflexivity.
  - rewrite data_block_step_spec. simpl. rewrite IH, <- app_assoc. reflexivity.
Qed.

(** The two bytes of the trailer for a body of sum [s]. *)
Lemma calc_checksum_spec (packet : bytes) :
  exists lo hi,
    calc_checksum packet = Returned [lo; hi]
    /\ int_of lo + 256 * int_of hi = sum packet mod 65536.
Proof.
  unfold calc_checksum.
  rewrite land_65535, shiftr_8, !land_255.
  set (s := sum packet mod 65536).
  assert (Hs : 0 <= s < 65536) by (apply Z.mod_pos_bound; lia).
  assert (Hlo : 0 <= s mod 256 < 256) by (apply Z.mod_pos_bound; lia).
  assert (Hhi : 0 <= (s / 256) mod 256 < 256) by (apply Z.mod_pos_bound; lia).
  exists (the_byte (s mod 256)), (the_byte ((s / 256) mod 256)).
  simpl. rewrite !byte_of_int_the_byte by assumption. split; [reflexivity|].
  rewrite !int_of_the_byte by assumption.
  rewrite (Z.mod_small (s / 256)) by (split; [apply Z.div_pos; lia | apply Z.div_lt_upper_bound; lia]).
  pose proof (Z.div_mod s 256). lia.
Qed.

(** The frame on ASCII strings of any length. *)
Lemma build_read_packet_frame (device_id password : str) (params : list Z) :
  is_ascii device_id -> is_ascii password ->
  exists lo hi,
    let body := [x02; x10] ++ ljust 16 x00 (ascii_bytes device_id)
                ++ [x04] ++ ljust 4 x00 (ascii_bytes password)
                ++ [x01] ++ flat_map encode_param params in
    build_read_packet device_id password params
    = Returned ([xfd; xfd] ++ body ++ [lo; hi])
    /\ int_of lo + 256 * int_of hi = sum body mod 65536.
Proof.
  intros Hid Hpwd. unfold build_read_packet.
  rewrite (encode_ascii_ok _ Hid), (encode_ascii_ok _ Hpwd).
  rewrite data_block_loop_spec. cbn [app].
  change (bytes_of_ints [0xFD; 0xFD]) with (Returned [xfd; xfd]).
  change (bytes_of_ints [0x02]) with (Returned [x02]).
  change (bytes_of_ints [0x10]) with (Returned [x10]).
  change (bytes_of_ints [0x04]) with (Returned [x04]).
  change (bytes_of_ints [0x01]) with (Returned [x01]).
  cbn [mbind mret outcome_bind outcome_ret app].
  match goal with |- context [calc_checksum ?b] =>
    destruct (calc_checksum_spec b) as (lo & hi & Hc & Hsum); rewrite Hc end.
  exists lo, hi. split; [reflexivity | exact Hsum].
Qed.

Lemma ljust_short (width : Z) (fill : byte) (b : bytes) :
  len b <= width ->
  ljust width fill b = b ++ replicate (Z.to_nat width - length b) fill
  /\ len (ljust width fill b) = width.
Proof.
  intros Hb. unfold ljust, len in *. split.
  - f_equal. f_equal. lia.
  - rewrite length_app, length_replicate. lia.
Qed.

Lemma ljust_long (width : Z) (fill : byte) (b : bytes) :
  width <= len b -> ljust width fill b = b.
Proof.
  intros Hb. unfold ljust.
  replace (Z.to_nat (width - len b)) with 0%nat by lia.
  apply app_nil_r.
Qed.

Lemma length_ascii_bytes (s : str) : length (ascii_bytes s) = length s.
Proof. unfold ascii_bytes. apply length_map. Qed.

Lemma len_ascii_bytes (s : str) : len (ascii_bytes s) = len s.
Proof. unfold len. rewrite length_ascii_bytes. reflexivity. Qed.

Lemma encode_param_entry (param : Z) :
  is_param_id param -> encode_param param = param_entry param.
Proof.
  intros Hp. unfold is_param_id in Hp. unfold encode_param, param_entry.
  rewrite shiftr_8, !land_255.
  assert (Hh : 0 <= param / 256 < 256)
    by (split; [apply Z.div_pos; lia | apply Z.div_lt_upper_bound; lia]).
  rewrite (Z.mod_small (param / 256)) by assumption.
  destruct (param / 256 =? 0) eqn:E.
  - apply Z.eqb_eq in E. rewrite E. reflexivity.
  - apply Z.eqb_neq in E.
    replace (param / 256 >? 0) with true by (symmetry; apply Z.gtb_lt; lia).
    reflexivity.
Qed.

Lemma flat_map_param_entry (params : list Z) :
  Forall is_param_id params ->
  flat_map encode_param params = flat_map param_entry params.
Proof.
  induction 1 as [|param rest Hp _ IH]; [reflexivity|].
  simpl. rewrite IH, (encode_param_entry _ Hp). reflexivity.
Qed.

Lemma len_encode_param (param : Z) :
  1 <= len (encode_param param) <= 3
  /\ (0 <= param <= 255 -> len (encode_param param) = 1).
Proof.
  unfold encode_param. rewrite shiftr_8, !land_255.
  destruct (Z.gtb_spec ((param / 256) mod 256) 0) as [H|H].
  - split; [unfold len; simpl; lia|].
    intros Hp. rewrite Z.div_small, Z.mod_0_l in H by lia. lia.
  - split; [unfold len; simpl; lia | reflexivity].
Qed.

Lemma len_flat_map_encode_param (params : list Z) :
  len params <= len (flat_map encode_param params) <= 3 * len params
  /\ (Forall (fun param => 0 <= param <= 255) params ->
      len (flat_map encode_param params) = len params).
Proof.
  induction params as [|param rest [IH1 IH2]].
  - unfold len. simpl. split; [lia | reflexivity].
  - cbn [flat_map]. rewrite len_app.
    destruct (len_encode_param param) as [Hb Hone].
    replace (len (param :: rest)) with (1 + len rest)
      by (unfold len; simpl length; lia).
    split; [lia|]. intros Hall. inversion Hall as [|? ? Hp Hrest]; subst.
    rewrite (Hone Hp), (IH2 Hrest). reflexivity.
Qed.

(** C1.  For a device id of at most 16 ASCII characters and a password of at
    most 4, with any parameter list (the empty one included),
    [build_read_packet] returns FD FD, 02, 10, the device id followed by
    zero bytes up to 16 bytes, 04, the password followed by zero bytes up
    to 4 bytes, 01, the parameter block and two trailer bytes.  The
    parameter block is the one that the loop produces: the entries of the
    ids of the list, in order, each of one or three bytes (so it is not
    empty for a list that is not), and for 16-bit ids the entries in the
    words of the specification.  The frame has 2+1+1+16+1+4+1+len(block)+2
    bytes and the trailer, low byte first, is the sum of the bytes from the
    type byte to the end of the block, modulo 65536. *)
Theorem build_read_packet_layout (device_id password : str) (params : list Z) :
  is_ascii device_id -> len device_id <= 16 ->
  is_ascii password -> len password <= 4 ->
  exists block lo hi,
    let id_field :=
      ascii_bytes device_id ++ replicate (16 - length device_id) x00 in
    let pwd_field :=
      ascii_bytes password ++ replicate (4 - length password) x00 in
    let body :=
      [x02] ++ [x10] ++ id_field ++ [x04] ++ pwd_field ++ [x01] ++ block in
    data_block_loop params [] = Returned block
    /\ build_read_packet device_id password params
       = Returned ([xfd; xfd] ++ body ++ [lo; hi])
    /\ len id_field = 16 /\ len pwd_field = 4
    /\ len ([xfd; xfd] ++ body ++ [lo; hi])
       = 2 + 1 + 1 + 16 + 1 + 4 + 1 + len block + 2
    /\ int_of lo + 256 * int_of hi = sum body mod 65536
    /\ block = flat_map encode_param params
    /\ (Forall is_param_id params -> block = flat_map param_entry params)
    /\ len params <= len block <= 3 * len params
    /\ (params <> [] -> block <> []).
Proof.
  intros Hid Hidlen Hpwd Hpwdlen.
  destruct (build_read_packet_frame device_id password params Hid Hpwd)
    as (lo & hi & Hframe & Hsum).
  rewrite <- len_ascii_bytes in Hidlen, Hpwdlen.
  destruct (ljust_short 16 x00 _ Hidlen) as [Eid Lid].
  destruct (ljust_short 4 x00 _ Hpwdlen) as [Epwd Lpwd].
  rewrite Eid in Lid. rewrite Epwd in Lpwd.
  rewrite Eid, Epwd in Hframe, Hsum.
  rewrite (length_ascii_bytes device_id) in Lid, Hframe, Hsum.
  rewrite (length_ascii_bytes password) in Lpwd, Hframe, Hsum.
  change (Z.to_nat 16) with 16%nat in *. change (Z.to_nat 4) with 4%nat in *.
  exists (flat_map encode_param params), lo, hi. cbv zeta.
  split; [apply data_block_loop_spec|].
  split; [exact Hframe|].
  split; [exact Lid|]. split; [exact Lpwd|].
  split.
  { unfold len in Lid, Lpwd |- *.
    repeat rewrite length_app in Lid. repeat rewrite length_app in Lpwd.
    repeat rewrite length_app. cbn [length]. lia. }
  split; [exact Hsum|].
  split; [reflexivity|].
  split; [intros Hparams; apply flat_map_param_entry; exact Hparams|].
  destruct (len_flat_map_encode_param params) as [Hb _].
  split; [exact Hb|].
  intros Hne Hnil. rewrite Hnil in Hb.
  destruct params as [|param rest]; [congruence|].
  unfold len in Hb. simpl in Hb. lia.
Qed.

Lemma build_read_packet_layout_witness :
  exists block lo hi,
    let id_field := ascii_bytes (str_lit "DEFAULT_DEVICEID") ++ replicate (16 - 16) x00 in
    let pwd_field := ascii_bytes (str_lit "11") ++ replicate (4 - 2) x00 in
    let body :=
      [x02] ++ [x10] ++ id_field ++ [x04] ++ pwd_field ++ [x01] ++ block in
    data_block_loop ALL_PARAMS [] = Returned block
    /\ build_read_packet (str_lit "DEFAULT_DEVICEID") (str_lit "11") ALL_PARAMS
       = Returned ([xfd; xfd] ++ body ++ [lo; hi])
    /\ len id_field = 16 /\ len pwd_field = 4
    /\ len ([xfd; xfd] ++ body ++ [lo; hi])
       = 2 + 1 + 1 + 16 + 1 + 4 + 1 + len block + 2
    /\ int_of lo + 256 * int_of hi = sum body mod 65536
    /\ block = flat_map encode_param ALL_PARAMS
    /\ (Forall is_param_id ALL_PARAMS -> block = flat_map param_entry ALL_PARAMS)
    /\ len ALL_PARAMS <= len block <= 3 * len ALL_PARAMS
    /\ (ALL_PARAMS <> [] -> block <> []).
Proof.
  apply (build_read_packet_layout (str_lit "DEFAULT_DEVICEID") (str_lit "11") ALL_PARAMS).
  - ascii_literal.
  - vm_compute. discriminate.
  - ascii_literal.
  - vm_compute. discriminate.
Defined.

(** The frame of the default device id and password for the eight default
    parameter ids holds the eight ids, one byte each, after the function
    byte. *)
Example build_read_packet_defaults :
  build_read_packet (str_lit "DEFAULT_DEVICEID") (str_lit "1111") ALL_PARAMS
  = Returned ([xfd; xfd; x02; x10] ++ ascii_bytes (str_lit "DEFAULT_DEVICEID")
              ++ [x04] ++ ascii_bytes (str_lit "1111") ++ [x01]
              ++ [x01; x02; x06; x19; x25; x4a; x4b; xb7] ++ [x0f; x07]).
Proof. vm_compute. reflexivity. Qed.

(** C6.  For 16-bit parameter ids, the parameter block holds, in list order,
    the entry of each id: the low byte alone when the high byte is zero,
    else FF, the high byte and the low byte; and this block is the one
    placed in the frame after the function byte. *)
Theorem build_read_packet_param_block (device_id password : str) (params : list Z) :
  is_ascii device_id -> is_ascii password ->
  Forall is_param_id params ->
  data_block_loop params [] = Returned (flat_map param_entry params)
  /\ exists lo hi,
       build_read_packet device_id password params
       = Returned ([xfd; xfd; x02; x10] ++ ljust 16 x00 (ascii_bytes device_id)
                   ++ [x04] ++ ljust 4 x00 (ascii_bytes password) ++ [x01]
                   ++ flat_map param_entry params ++ [lo; hi]).
Proof.
  intros Hid Hpwd Hparams.
  rewrite <- (flat_map_param_entry _ Hparams). split.
  - apply data_block_loop_spec.
  - destruct (build_read_packet_frame device_id password params Hid Hpwd)
      as (lo & hi & Hframe & _).
    exists lo, hi. rewrite Hframe. f_equal.
    repeat (progress (cbn [app]; rewrite <- ?app_assoc)). reflexivity.
Qed.

Lemma build_read_packet_param_block_witness :
  data_block_loop [0x0001; 0x0102; 0x00B7; 0xFF00] []
  = Returned (flat_map param_entry [0x0001; 0x0102; 0x00B7; 0xFF00])
  /\ exists lo hi,
       build_read_packet (str_lit "DEFAULT_DEVICEID") (str_lit "1111")
         [0x0001; 0x0102; 0x00B7; 0xFF00]
       = Returned ([xfd; xfd; x02; x10]
                   ++ ljust 16 x00 (ascii_bytes (str_lit "DEFAULT_DEVICEID"))
                   ++ [x04] ++ ljust 4 x00 (ascii_bytes (str_lit "1111")) ++ [x01]
                   ++ flat_map param_entry [0x0001; 0x0102; 0x00B7; 0xFF00]
                   ++ [lo; hi]).
Proof.
  apply (build_read_packet_param_block (str_lit "DEFAULT_DEVICEID") (str_lit "1111")
           [0x0001; 0x0102; 0x00B7; 0xFF00]).
  - ascii_literal.
  - ascii_literal.
  - unfold is_param_id. repeat (constructor; [lia|]). constructor.
Defined.

(** C9, as stated, fails: a password of five characters is not cut to four.
    All five bytes are emitted and the frame is one byte longer than the
    layout of fixed width. *)
Lemma build_read_packet_long_password :
  exists frame,
    build_read_packet (str_lit "DEFAULT_DEVICEID") (str_lit "12345") [0x0001]
    = Returned frame
    /\ ~ fixed_width_frame (str_lit "DEFAULT_DEVICEID") (str_lit "12345") [0x0001] frame
    /\ len frame = 2 + 1 + 1 + 16 + 1 + 5 + 1 + 1 + 2
    /\ take 5 (drop 21 frame) = ascii_bytes (str_lit "12345").
Proof.
  eexists. split; [vm_compute; reflexivity|].
  split; [|split; reflexivity].
  intros (lo & hi & E). vm_compute in E. discriminate E.
Qed.

(** C9, amended.  On ASCII strings of any length [build_read_packet] returns
    a frame and raises nothing.  Each field is the encoded string followed
    by the zero bytes that it lacks to fill the field: a string longer than
    its field is emitted whole, neither cut nor padded, and lengthens the
    frame. *)
Theorem build_read_packet_overlong (device_id password : str) (params : list Z) :
  is_ascii device_id -> is_ascii password ->
  exists block lo hi,
    let id_field :=
      ascii_bytes device_id ++ replicate (16 - length device_id) x00 in
    let pwd_field :=
      ascii_bytes password ++ replicate (4 - length password) x00 in
    data_block_loop params [] = Returned block
    /\ build_read_packet device_id password params
       = Returned ([xfd; xfd] ++ [x02] ++ [x10] ++ id_field ++ [x04]
                   ++ pwd_field ++ [x01] ++ block ++ [lo; hi])
    /\ (16 <= len device_id -> id_field = ascii_bytes device_id)
    /\ (4 <= len password -> pwd_field = ascii_bytes password)
    /\ len id_field = Z.max 16 (len device_id)
    /\ len pwd_field = Z.max 4 (len password).
Proof.
  intros Hid Hpwd.
  destruct (build_read_packet_frame device_id password params Hid Hpwd)
    as (lo & hi & Hframe & _).
  exists (flat_map encode_param params), lo, hi. cbv zeta.
  split; [apply data_block_loop_spec|].
  split.
  - rewrite Hframe. unfold ljust, len.
    rewrite !length_ascii_bytes.
    replace (Z.to_nat (16 - Z.of_nat (length device_id)))
      with (16 - length device_id)%nat by lia.
    replace (Z.to_nat (4 - Z.of_nat (length password)))
      with (4 - length password)%nat by lia.
    f_equal.
    repeat (progress (cbn [app]; rewrite <- ?app_assoc)). reflexivity.
  - unfold len. repeat split.
    + intros H. replace (16 - length device_id)%nat with 0%nat by lia.
      apply app_nil_r.
    + intros H. replace (4 - length password)%nat with 0%nat by lia.
      apply app_nil_r.
    + rewrite length_app, length_replicate, length_ascii_bytes. lia.
    + rewrite length_app, length_replicate, length_ascii_bytes. lia.
Qed.

Lemma build_read_packet_overlong_witness :
  exists block lo hi,
    let id_field :=
      ascii_bytes (str_lit "DEFAULT_DEVICEID_X")
      ++ replicate (16 - length (str_lit "DEFAULT_DEVICEID_X")) x00 in
    let pwd_field :=
      ascii_bytes (str_lit "12345") ++ replicate (4 - length (str_lit "12345")) x00 in
    data_block_loop ALL_PARAMS [] = Returned block
    /\ build_read_packet (str_lit "DEFAULT_DEVICEID_X") (str_lit "12345") ALL_PARAMS
       = Returned ([xfd; xfd] ++ [x02] ++ [x10] ++ id_field ++ [x04]
                   ++ pwd_field ++ [x01] ++ block ++ [lo; hi])
    /\ (16 <= len (str_lit "DEFAULT_DEVICEID_X")
        -> id_field = ascii_bytes (str_lit "DEFAULT_DEVICEID_X"))
    /\ (4 <= len (str_lit "12345") -> pwd_field = ascii_bytes (str_lit "12345"))
    /\ len id_field = Z.max 16 (len (str_lit "DEFAULT_DEVICEID_X"))
    /\ len pwd_field = Z.max 4 (len (str_lit "12345")).
Proof.
  apply (build_read_packet_overlong (str_lit "DEFAULT_DEVICEID_X") (str_lit "12345")
           ALL_PARAMS); ascii_literal.
Defined.

(* ===================================================================== *)
(** * The response parser                                                 *)
(* ===================================================================== *)

Lemma land_shiftl_8 (lo hi : Z) : 0 <= lo < 256 -> Z.land lo (Z.shiftl hi 8) = 0.
Proof.
  intros Hlo. apply Z.bits_inj'. intros n Hn.
  rewrite Z.land_spec, Z.bits_0.
  destruct (Z.ltb_spec n 8).
  - rewrite (Z.shiftl_spec_low hi 8 n) by lia. apply andb_false_r.
  - replace lo with (lo mod 2 ^ 8) by (apply Z.mod_small; lia).
    rewrite Z.mod_pow2_bits_high by lia. reflexivity.
Qed.

Lemma lor_shiftl_8 (lo hi : Z) :
  0 <= lo < 256 -> Z.lor lo (Z.shiftl hi 8) = lo + 256 * hi.
Proof.
  intros Hlo. pose proof (land_shiftl_8 lo hi Hlo) as E.
  rewrite <- Z.lxor_lor, <- Z.add_nocarry_lxor by exact E.
  rewrite Z.shiftl_mul_pow2 by lia. lia.
Qed.

(** Reading inside the second part of a concatenation. *)
Lemma getitem_app (pre rest : bytes) (k : nat) (b : byte) :
  rest !! k = Some b ->
  getitem (pre ++ rest) (len pre + Z.of_nat k) = Returned (int_of b).
Proof.
  intros Hk. pose proof (lookup_lt_Some _ _ _ Hk) as Hlt.
  unfold getitem. rewrite len_app. unfold len.
  replace (Z.of_nat (length pre) + Z.of_nat k <? 0) with false
    by (symmetry; apply Z.ltb_ge; lia).
  replace ((0 <=? Z.of_nat (length pre) + Z.of_nat k)
           && (Z.of_nat (length pre) + Z.of_nat k
               <? Z.of_nat (length pre) + Z.of_nat (length rest)))
    with true
    by (symmetry; apply andb_true_iff; split;
        [apply Z.leb_le | apply Z.ltb_lt]; lia).
  replace (Z.to_nat (Z.of_nat (length pre) + Z.of_nat k))
    with (length pre + k)%nat by lia.
  rewrite lookup_app_r by lia.
  replace (length pre + k - length pre)%nat with k by lia.
  rewrite Hk. reflexivity.
Qed.

Lemma slice_app (pre rest : bytes) (k n : nat) :
  (k + n <= length rest)%nat ->
  slice (pre ++ rest) (len pre + Z.of_nat k) (len pre + Z.of_nat k + Z.of_nat n)
  = take n (drop k rest).
Proof.
  intros Hkn. unfold slice. rewrite len_app. unfold len.
  replace (Z.of_nat (length pre) + Z.of_nat k <? 0) with false
    by (symmetry; apply Z.ltb_ge; lia).
  replace (Z.of_nat (length pre) + Z.of_nat k + Z.of_nat n <? 0) with false
    by (symmetry; apply Z.ltb_ge; lia).
  rewrite !Z.min_l by lia.
  replace (Z.to_nat (Z.of_nat (length pre) + Z.of_nat k + Z.of_nat n
                     - (Z.of_nat (length pre) + Z.of_nat k))) with n by lia.
  replace (Z.to_nat (Z.of_nat (length pre) + Z.of_nat k))
    with (length pre + k)%nat by lia.
  rewrite drop_app_add. reflexivity.
Qed.

Lemma decode_fields_short (rest : bytes) :
  (length rest <= 2)%nat -> decode_fields rest = [].
Proof.
  intros H. destruct rest as [|a [|b [|c tl]]]; try reflexivity.
  simpl in H. lia.
Qed.

(** With fuel beyond the number of bytes left, the loop stores the fields
    that follow [pos]. *)
Lemma parse_loop_decode (fuel : nat) :
  forall (data : bytes) (pos : Z) (pre rest : bytes) (result : gmap Z value),
    data = pre ++ rest -> pos = len pre -> (length rest < fuel)%nat ->
    parse_loop fuel data pos result
    = Returned (store (decode_fields rest) result).
Proof.
  induction fuel as [|fuel IH]; intros data pos pre rest result Hdata Hpos Hfuel;
    [lia|].
  assert (Hlen : len data = len pre + len rest) by (subst data; apply len_app).
  cbn [parse_loop].
  destruct (Z.ltb_spec pos (len data - 2)) as [Hlt|Hge].
  2: { rewrite decode_fields_short by (unfold len in *; lia). reflexivity. }
  destruct rest as [|id [|a [|b tl]]];
    try (exfalso; unfold len in *; simpl in *; lia).
  assert (G0 : getitem data pos = Returned (int_of id)).
  { subst data pos. rewrite <- (Z.add_0_r (len pre)).
    apply (getitem_app pre _ 0). reflexivity. }
  assert (G1 : getitem data (pos + 1) = Returned (int_of a)).
  { subst data pos. apply (getitem_app pre _ 1). reflexivity. }
  assert (G2 : getitem data (pos + 1 + 1) = Returned (int_of b)).
  { subst data pos. rewrite <- Z.add_assoc. apply (getitem_app pre _ 2). reflexivity. }
  rewrite G0. cbn [mbind outcome_bind].
  cbn [decode_fields length Nat.leb].
  destruct (int_of id =? 0x64) eqn:E64.
  - (* three bytes, kept as a tuple *)
    rewrite Z.gtb_ltb.
    destruct tl as [|c tl].
    + replace (len data <? pos + 1 + 3) with true
        by (symmetry; apply Z.ltb_lt; unfold len in *; simpl in *; lia).
      reflexivity.
    + replace (len data <? pos + 1 + 3) with false
        by (symmetry; apply Z.ltb_ge; unfold len in *; simpl in *; lia).
      assert (S3 : slice data (pos + 1) (pos + 1 + 3) = [a; b; c]).
      { subst data pos.
        exact (slice_app pre (id :: a :: b :: c :: tl) 1 3 ltac:(simpl; lia)). }
      rewrite S3. cbn [fmap list_fmap].
      rewrite (IH data (pos + 1 + 3) (pre ++ [id; a; b; c]) tl).
      * reflexivity.
      * subst data. rewrite <- app_assoc. reflexivity.
      * rewrite len_app. unfold len in *. simpl. lia.
      * simpl in Hfuel. lia.
  - destruct ((int_of id =? 0x4A) || (int_of id =? 0x4B)) eqn:E4.
    + (* two bytes, low byte first *)
      rewrite Z.gtb_ltb.
      replace (len data <? pos + 1 + 2) with false
        by (symmetry; apply Z.ltb_ge; unfold len in *; simpl in *; lia).
      rewrite G1, G2. cbn [mbind outcome_bind].
      rewrite lor_shiftl_8 by (pose proof (int_of_range a); lia).
      rewrite (IH data (pos + 1 + 2) (pre ++ [id; a; b]) tl).
      * reflexivity.
      * subst data. rewrite <- app_assoc. reflexivity.
      * rewrite len_app. unfold len in *. simpl. lia.
      * simpl in Hfuel. lia.
    + (* one byte *)
      rewrite Z.geb_leb.
      replace (len data <=? pos + 1) with false
        by (symmetry; apply Z.leb_gt; unfold len in *; simpl in *; lia).
      rewrite G1. cbn [mbind outcome_bind].
      rewrite (IH data (pos + 1 + 1) (pre ++ [id; a]) (b :: tl)).
      * reflexivity.
      * subst data. rewrite <- app_assoc. reflexivity.
      * rewrite len_app. unfold len in *. simpl. lia.
      * simpl in Hfuel. simpl. lia.
Qed.

(** [index_from] finds the first byte equal to [x], or raises
    [ValueError] when there is none; it does nothing else. *)
Lemma index_from_spec (data : bytes) (x i0 : Z) :
  match index_from data x i0 with
  | Returned i =>
      exists pre b rest,
        data = pre ++ b :: rest /\ i = i0 + len pre /\ int_of b = x
        /\ Forall (fun c => int_of c <> x) pre
  | Raised e => e = ValueError /\ Forall (fun c => int_of c <> x) data
  | NoFuel => False
  end.
Proof.
  revert i0. induction data as [|b data IH]; intros i0; simpl.
  - split; [reflexivity | constructor].
  - destruct (Z.eqb_spec (int_of b) x) as [E|E].
    + exists [], b, data. unfold len. simpl.
      clear IH. split; [reflexivity|]. split; [lia|].
      split; [exact E | constructor].
    + specialize (IH (i0 + 1)).
      destruct (index_from data x (i0 + 1)) as [i|e|]; [|split|exact IH].
      * destruct IH as (pre & c & rest & -> & -> & Hc & Hpre).
        exists (b :: pre), c, rest. unfold len. simpl length.
        split; [reflexivity|]. split; [lia|].
        split; [exact Hc | constructor; assumption].
      * apply IH.
      * constructor; [exact E | apply IH].
Qed.

Lemma index_absent (data : bytes) :
  x06 ∉ data -> index data 0x06 = Raised ValueError.
Proof.
  unfold index. generalize 0.
  induction data as [|b data IH]; intros i0 Hnot; simpl; [reflexivity|].
  destruct (Z.eqb_spec (int_of b) 0x06) as [E|E].
  - exfalso. apply Hnot. apply (int_of_inj b x06) in E. subst b. left.
  - apply IH. intros Hin. apply Hnot. right. exact Hin.
Qed.

Lemma truthy_len (data : bytes) : 20 <= len data -> truthy data = true.
Proof. destruct data; [unfold len; simpl; lia | reflexivity]. Qed.

(** On a frame of at least 20 bytes with a marker, the parser returns the
    fields that follow the first marker, stored in order. *)
Lemma parse_accepted (data : bytes) (func_index : Z) :
  20 <= len data ->
  index data 0x06 = Returned func_index ->
  parse_ventoexpert_response data
  = Returned (store (decode_fields (drop (Z.to_nat (func_index + 1)) data)) ∅).
Proof.
  intros Hlen Hidx. unfold parse_ventoexpert_response.
  rewrite (truthy_len _ Hlen).
  replace (len data <? 20) with false by (symmetry; apply Z.ltb_ge; lia).
  cbn [negb orb]. rewrite Hidx.
  pose proof (index_from_spec data 0x06 0) as Hspec.
  unfold index in Hidx. rewrite Hidx in Hspec.
  destruct Hspec as (pre & b & rest & Hdata & Hi & _ & _).
  assert (Hsplit : data = (pre ++ [b]) ++ rest)
    by (rewrite <- app_assoc; exact Hdata).
  assert (Hpos : func_index + 1 = len (pre ++ [b]))
    by (rewrite len_app; unfold len in *; simpl; lia).
  rewrite (parse_loop_decode (length data) data (func_index + 1)
             (pre ++ [b]) rest ∅ Hsplit Hpos).
  - rewrite Hpos. unfold len. rewrite Nat2Z.id.
    rewrite Hsplit, drop_app_length. reflexivity.
  - rewrite Hsplit, !length_app. simpl. lia.
Qed.

Lemma parse_short (data : bytes) :
  len data < 20 -> parse_ventoexpert_response data = Returned ∅.
Proof.
  intros Hshort. unfold parse_ventoexpert_response.
  replace (len data <? 20) with true by (symmetry; apply Z.ltb_lt; lia).
  rewrite orb_true_r. reflexivity.
Qed.

Lemma parse_no_marker (data : bytes) :
  index data 0x06 = Raised ValueError ->
  parse_ventoexpert_response data = Returned ∅.
Proof.
  intros Hidx. unfold parse_ventoexpert_response. rewrite Hidx.
  destruct (negb (truthy data) || (len data <? 20)); reflexivity.
Qed.

(** The parser returns a mapping on every input. *)
Lemma parse_returns (data : bytes) :
  exists result, parse_ventoexpert_response data = Returned result.
Proof.
  destruct (Z.ltb_spec (len data) 20) as [Hshort|Hlen].
  { exists ∅. apply parse_short. exact Hshort. }
  pose proof (index_from_spec data 0x06 0) as Hspec. fold (index data 0x06) in Hspec.
  destruct (index data 0x06) as [func_index|e|] eqn:Hidx; [| |contradiction].
  - eexists. exact (parse_accepted data func_index Hlen Hidx).
  - destruct Hspec as [-> _]. exists ∅. apply parse_no_marker. exact Hidx.
Qed.

(** C5.  An empty input, an input of fewer than 20 bytes and an input
    without a byte 0x06 all yield the empty mapping, returned and not
    raised. *)
Theorem parse_rejected (data : bytes) :
  data = [] \/ len data < 20 \/ x06 ∉ data ->
  parse_ventoexpert_response data = Returned ∅.
Proof.
  intros [Hempty | [Hshort | Hnone]].
  - subst data. reflexivity.
  - apply parse_short. exact Hshort.
  - apply parse_no_marker, index_absent. exact Hnone.
Qed.

Lemma parse_rejected_witness :
  ([x00; x06; x01; x02] = [] \/ len [x00; x06; x01; x02] < 20
   \/ x06 ∉ [x00; x06; x01; x02])
  /\ parse_ventoexpert_response [x00; x06; x01; x02] = Returned ∅.
Proof.
  assert (H : [x00; x06; x01; x02] = [] \/ len [x00; x06; x01; x02] < 20
              \/ x06 ∉ [x00; x06; x01; x02])
    by (right; left; reflexivity).
  split; [exact H | exact (parse_rejected [x00; x06; x01; x02] H)].
Defined.

(** C2.  On an accepted frame (20 bytes or more, with a byte 0x06) parsing
    starts right after the first 0x06 and the result holds the fields
    decoded from there: one byte of id, then three bytes kept as a tuple for
    id 0x64, two bytes read low byte first for ids 0x4A and 0x4B, one byte
    for any other id.  So 64 01 02 03 yields the tuple (1, 2, 3) and
    4A 2C 01 yields 300. *)
Theorem parse_decodes_fields (data : bytes) (func_index : Z) :
  20 <= len data ->
  index data 0x06 = Returned func_index ->
  parse_ventoexpert_response data
  = Returned (store (decode_fields (drop (Z.to_nat (func_index + 1)) data)) ∅)
  /\ (forall a b c tl,
        decode_fields (x64 :: a :: b :: c :: tl)
        = (0x64, VTuple [int_of a; int_of b; int_of c]) :: decode_fields tl)
  /\ (forall id lo hi tl,
        id = x4a \/ id = x4b ->
        decode_fields (id :: lo :: hi :: tl)
        = (int_of id, VInt (int_of lo + 256 * int_of hi)) :: decode_fields tl)
  /\ (forall id a b tl,
        id <> x64 -> id <> x4a -> id <> x4b ->
        decode_fields (id :: a :: b :: tl)
        = (int_of id, VInt (int_of a)) :: decode_fields (b :: tl))
  /\ decode_fields [x64; x01; x02; x03; x4a; x2c; x01; x00; x00]
     = [(0x64, VTuple [1; 2; 3]); (0x4A, VInt 300)].
Proof.
  intros Hlen Hidx. split; [exact (parse_accepted data func_index Hlen Hidx)|].
  split; [reflexivity|]. split; [|split; [|reflexivity]].
  - intros id lo hi tl [-> | ->]; reflexivity.
  - intros id a b tl H64 H4a H4b. cbn [decode_fields length Nat.leb].
    replace (int_of id =? 0x64) with false
      by (symmetry; apply Z.eqb_neq; intros E; apply H64, int_of_inj, E).
    replace (int_of id =? 0x4A) with false
      by (symmetry; apply Z.eqb_neq; intros E; apply H4a, int_of_inj, E).
    replace (int_of id =? 0x4B) with false
      by (symmetry; apply Z.eqb_neq; intros E; apply H4b, int_of_inj, E).
    reflexivity.
Qed.

Lemma parse_decodes_fields_witness :
  parse_ventoexpert_response sample_response
  = Returned (store (decode_fields (drop (Z.to_nat (16 + 1)) sample_response)) ∅)
  /\ (forall a b c tl,
        decode_fields (x64 :: a :: b :: c :: tl)
        = (0x64, VTuple [int_of a; int_of b; int_of c]) :: decode_fields tl)
  /\ (forall id lo hi tl,
        id = x4a \/ id = x4b ->
        decode_fields (id :: lo :: hi :: tl)
        = (int_of id, VInt (int_of lo + 256 * int_of hi)) :: decode_fields tl)
  /\ (forall id a b tl,
        id <> x64 -> id <> x4a -> id <> x4b ->
        decode_fields (id :: a :: b :: tl)
        = (int_of id, VInt (int_of a)) :: decode_fields (b :: tl))
  /\ decode_fields [x64; x01; x02; x03; x4a; x2c; x01; x00; x00]
     = [(0x64, VTuple [1; 2; 3]); (0x4A, VInt 300)].
Proof.
  apply (parse_decodes_fields sample_response 16).
  - vm_compute. discriminate.
  - reflexivity.
Defined.

(** The sample frame decodes to the tuple, the 16-bit integer and the byte. *)
Example parse_sample_response :
  exists result,
    parse_ventoexpert_response sample_response = Returned result
    /\ result !! 0x64 = Some (VTuple [1; 2; 3])
    /\ result !! 0x4A = Some (VInt 300)
    /\ result !! 0x01 = Some (VInt 5)
    /\ result !! 0xAA = None.
Proof. eexists. split; [vm_compute; reflexivity|]. repeat split. Qed.

(** Lookup in a mapping filled by [store]. *)
Lemma store_app (before after : list (Z * value)) (result : gmap Z value) :
  store (before ++ after) result = store after (store before result).
Proof. unfold store. apply fold_left_app. Qed.

Lemma store_absent (fields : list (Z * value)) (result : gmap Z value) (id : Z) :
  id ∉ fields.*1 -> store fields result !! id = result !! id.
Proof.
  revert result. induction fields as [|[k v] fields IH]; intros result Hid;
    [reflexivity|].
  rewrite fmap_cons, not_elem_of_cons in Hid. destruct Hid as [Hne Hid].
  change (store ((k, v) :: fields) result) with (store fields (<[k := v]> result)).
  rewrite (IH _ Hid). apply lookup_insert_ne. simpl in Hne. congruence.
Qed.

Lemma store_last (before after : list (Z * value)) (result : gmap Z value)
    (id : Z) (v : value) :
  id ∉ after.*1 -> store (before ++ (id, v) :: after) result !! id = Some v.
Proof.
  intros Hid. rewrite store_app.
  change (store ((id, v) :: after) (store before result))
    with (store after (<[id := v]> (store before result))).
  rewrite (store_absent _ _ _ Hid). apply lookup_insert_eq.
Qed.

Lemma store_lookup (fields : list (Z * value)) (result : gmap Z value)
    (id : Z) (v : value) :
  store fields result !! id = Some v ->
  (id, v) ∈ fields \/ result !! id = Some v.
Proof.
  revert result. induction fields as [|[k w] fields IH]; intros result Hv;
    [right; exact Hv|].
  change (store ((k, w) :: fields) result)
    with (store fields (<[k := w]> result)) in Hv.
  destruct (IH _ Hv) as [Hin | Hins].
  - left. right. exact Hin.
  - rewrite lookup_insert in Hins. case_decide as Hk.
    + left. injection Hins as <-. subst k. left.
    + right. exact Hins.
Qed.

(** C7.  When a parameter id has two fields in a frame, the second being its
    last, the returned mapping holds the value of the second field under
    that id; the first value is replaced, not combined with it. *)
Theorem parse_last_write_wins (data : bytes) (func_index id : Z)
    (v1 v2 : value) (before between after : list (Z * value)) :
  20 <= len data ->
  index data 0x06 = Returned func_index ->
  decode_fields (drop (Z.to_nat (func_index + 1)) data)
  = before ++ (id, v1) :: between ++ (id, v2) :: after ->
  id ∉ after.*1 ->
  exists result,
    parse_ventoexpert_response data = Returned result
    /\ result !! id = Some v2.
Proof.
  intros Hlen Hidx Hfields Hlast.
  eexists. split; [exact (parse_accepted data func_index Hlen Hidx)|].
  rewrite Hfields.
  replace (before ++ (id, v1) :: between ++ (id, v2) :: after)
    with ((before ++ (id, v1) :: between) ++ (id, v2) :: after)
    by (rewrite <- app_assoc; reflexivity).
  apply store_last. exact Hlast.
Qed.

Lemma parse_last_write_wins_witness :
  exists result,
    parse_ventoexpert_response duplicate_response = Returned result
    /\ result !! 0x01 = Some (VInt 9).
Proof.
  apply (parse_last_write_wins duplicate_response 16 0x01 (VInt 5) (VInt 9)
           [] [(0x02, VInt 7)] []).
  - vm_compute. discriminate.
  - reflexivity.
  - reflexivity.
  - simpl. apply not_elem_of_nil.
Defined.

Lemma decode_fields_fit (n : nat) :
  forall rest : bytes,
    (length rest <= n)%nat ->
    Forall (fun field => entry_fits field.1 field.2) (decode_fields rest).
Proof.
  induction n as [|n IH]; intros rest Hn.
  - rewrite decode_fields_short by lia. constructor.
  - destruct rest as [|id [|a [|b tl]]]; try (constructor; fail).
    cbn [decode_fields length Nat.leb].
    pose proof (int_of_range id) as Rid.
    pose proof (int_of_range a) as Ra.
    pose proof (int_of_range b) as Rb.
    destruct (Z.eqb_spec (int_of id) 0x64) as [E64|E64].
    + destruct tl as [|c tl]; constructor.
      * pose proof (int_of_range c) as Rc. cbn [fst snd].
        split; [lia|]. split; [|split; intros; exfalso; lia].
        intros _. exists (int_of a), (int_of b), (int_of c).
        repeat split; lia.
      * apply IH. simpl in Hn. lia.
    + destruct ((int_of id =? 0x4A) || (int_of id =? 0x4B)) eqn:E4; constructor.
      * cbn [fst snd]. split; [lia|]. split; [intros; exfalso; lia|].
        split; [|intros H64 H4a H4b; exfalso;
                 apply orb_true_iff in E4 as [E|E]; apply Z.eqb_eq in E; lia].
        intros _. eexists. split; [reflexivity | lia].
      * apply IH. simpl in Hn. lia.
      * cbn [fst snd]. apply orb_false_iff in E4 as [E4a E4b].
        apply Z.eqb_neq in E4a, E4b.
        split; [lia|]. split; [intros; exfalso; lia|].
        split; [intros [H|H]; exfalso; lia|].
        intros _ _ _. eexists. split; [reflexivity | lia].
      * apply (IH (b :: tl)). simpl in Hn. simpl. lia.
Qed.

(** C10.  On every byte sequence the parser returns a mapping: it neither
    raises nor runs out of fuel.  Every key is an integer of one byte; the
    value under 0x64 is a tuple of three bytes, under 0x4A and 0x4B an
    integer in [0, 65535], under any other key an integer in [0, 255]. *)
Theorem parse_total_and_typed (data : bytes) :
  exists result,
    parse_ventoexpert_response data = Returned result
    /\ forall id v, result !! id = Some v -> entry_fits id v.
Proof.
  destruct (Z.ltb_spec (len data) 20) as [Hshort|Hlen].
  { exists ∅. split; [apply parse_short; exact Hshort|].
    intros id v Hv. rewrite lookup_empty in Hv. discriminate. }
  pose proof (index_from_spec data 0x06 0) as Hspec. fold (index data 0x06) in Hspec.
  destruct (index data 0x06) as [func_index|e|] eqn:Hidx; [| |contradiction].
  - eexists. split; [exact (parse_accepted data func_index Hlen Hidx)|].
    intros id v Hv. apply store_lookup in Hv as [Hin | Hempty].
    + pose proof (decode_fields_fit _ (drop (Z.to_nat (func_index + 1)) data)
                    (Nat.le_refl _)) as Hfit.
      rewrite Forall_forall in Hfit. exact (Hfit _ Hin).
    + rewrite lookup_empty in Hempty. discriminate.
  - destruct Hspec as [-> _]. exists ∅. split.
    + apply parse_no_marker. exact Hidx.
    + intros id v Hv. rewrite lookup_empty in Hv. discriminate.
Qed.

Lemma getitem_in_range (data : bytes) (pos : Z) :
  0 <= pos < len data -> exists b, getitem data pos = Returned (int_of b).
Proof.
  intros Hpos. unfold getitem.
  replace (pos <? 0) with false by (symmetry; apply Z.ltb_ge; lia).
  replace ((0 <=? pos) && (pos <? len data)) with true
    by (symmetry; apply andb_true_iff; split;
        [apply Z.leb_le | apply Z.ltb_lt]; lia).
  destruct (data !! Z.to_nat pos) as [b|] eqn:E.
  - exists b. reflexivity.
  - apply lookup_ge_None in E. unfold len in Hpos. lia.
Qed.

Lemma parse_loop_reads_spec (fuel : nat) :
  forall (data : bytes) (pos : Z) (result : gmap Z value) (reads : list access),
    0 <= pos <= len data ->
    len data - pos < Z.of_nat fuel ->
    Forall (access_ok data) reads ->
    exists result' reads' e,
      parse_loop_reads fuel data pos result reads = Returned (result', reads', e)
      /\ parse_loop fuel data pos result = Returned result'
      /\ Forall (access_ok data) reads'
      /\ ending_ok data e.
Proof.
  induction fuel as [|fuel IH]; intros data pos result reads Hpos Hfuel Hreads;
    [lia|].
  cbn [parse_loop parse_loop_reads].
  destruct (Z.ltb_spec pos (len data - 2)) as [Hlt|Hge].
  2: { exists result, reads, (LoopCondition pos).
       repeat split; try assumption; simpl; lia. }
  destruct (getitem_in_range data pos ltac:(lia)) as [id G0].
  destruct (getitem_in_range data (pos + 1) ltac:(lia)) as [a G1].
  destruct (getitem_in_range data (pos + 1 + 1) ltac:(lia)) as [b G2].
  rewrite G0. cbn [mbind outcome_bind].
  assert (Hid : Forall (access_ok data) (reads ++ [IdAt pos])).
  { apply Forall_app. split; [assumption|]. repeat constructor; simpl; lia. }
  destruct (int_of id =? 0x64) eqn:E64.
  - rewrite Z.gtb_ltb.
    destruct (Z.ltb_spec (len data) (pos + 1 + 3)) as [Hbrk|Hok].
    + exists result, (reads ++ [IdAt pos]), (Break (pos + 1)).
      repeat split; try assumption.
      * replace (pos + 1 - 1) with pos by lia. rewrite G0.
        apply Z.eqb_eq in E64. rewrite E64. reflexivity.
      * lia.
    + apply IH; [lia | lia |].
      apply Forall_app. split; [assumption|]. repeat constructor; simpl; lia.
  - destruct ((int_of id =? 0x4A) || (int_of id =? 0x4B)).
    + rewrite Z.gtb_ltb.
      replace (len data <? pos + 1 + 2) with false
        by (symmetry; apply Z.ltb_ge; lia).
      rewrite G1, G2. cbn [mbind outcome_bind].
      apply IH; [lia | lia |].
      apply Forall_app. split; [assumption|]. repeat constructor; simpl; lia.
    + rewrite Z.geb_leb.
      replace (len data <=? pos + 1) with false
        by (symmetry; apply Z.leb_gt; lia).
      rewrite G1. cbn [mbind outcome_bind].
      apply IH; [lia | lia |].
      apply Forall_app. split; [assumption|]. repeat constructor; simpl; lia.
Qed.

(** C8, as stated, fails: on [tight_response] the value of id 01 is read at
    position 18, the first of the two trailing bytes, and stored. *)
Lemma parse_reads_trailer :
  exists result reads e,
    parse_ventoexpert_response_reads tight_response = Returned (result, reads, e)
    /\ parse_ventoexpert_response tight_response = Returned result
    /\ reads = [IdAt 17; ValueAt 18]
    /\ len tight_response - 2 = 18
    /\ result !! 0x01 = Some (VInt 0xAA)
    /\ ~ trailer_untouched tight_response reads.
Proof.
  eexists _, _, _. split; [vm_compute; reflexivity|].
  split; [vm_compute; reflexivity|].
  split; [reflexivity|]. split; [reflexivity|]. split; [reflexivity|].
  intros H. specialize (H (ValueAt 18)).
  assert (Hin : ValueAt 18 ∈ [IdAt 17; ValueAt 18]) by (right; left).
  specialize (H Hin). vm_compute in H. discriminate H.
Qed.

(** C8, amended.  On every input the loop is left either when at most two
    bytes remain or, after id 0x64, when fewer than three bytes remain for
    its value.  Every parameter id is read before the last two bytes; a value
    is read inside the data and may take bytes of the last two. *)
Theorem parse_loop_stops (data : bytes) :
  exists result reads e,
    parse_ventoexpert_response_reads data = Returned (result, reads, e)
    /\ parse_ventoexpert_response data = Returned result
    /\ (forall pos, IdAt pos ∈ reads -> 0 <= pos < len data - 2)
    /\ (forall pos, ValueAt pos ∈ reads -> 0 <= pos < len data)
    /\ match e with
       | None => reads = []
       | Some (LoopCondition pos) => len data - 2 <= pos <= len data
       | Some (Break pos) =>
           getitem data (pos - 1) = Returned 0x64
           /\ pos - 1 < len data - 2 /\ len data < pos + 3
       end.
Proof.
  unfold parse_ventoexpert_response_reads, parse_ventoexpert_response.
  destruct (negb (truthy data) || (len data <? 20)) eqn:Hguard.
  { exists ∅, [], None.
    split; [reflexivity|]. split; [reflexivity|].
    split; [|split; [|reflexivity]];
      intros pos Hin; exfalso; exact (not_elem_of_nil _ Hin). }
  apply orb_false_iff in Hguard as [_ Hlen]. apply Z.ltb_ge in Hlen.
  pose proof (index_from_spec data 0x06 0) as Hspec. fold (index data 0x06) in Hspec.
  destruct (index data 0x06) as [func_index|err|]; [| |contradiction].
  - destruct Hspec as (pre & b & rest & Hdata & Hi & _ & _).
    assert (Hpos : 0 <= func_index + 1 <= len data).
    { subst data. rewrite len_app in *. unfold len in *. simpl length. lia. }
    destruct (parse_loop_reads_spec (length data) data (func_index + 1) ∅ []
                Hpos ltac:(unfold len in *; lia) ltac:(constructor))
      as (result & reads & e & Hrun & Hloop & Hreads & He).
    exists result, reads, (Some e). rewrite Hrun, Hloop.
    rewrite Forall_forall in Hreads.
    split; [reflexivity|]. split; [reflexivity|].
    split; [intros pos Hin; exact (Hreads _ Hin)|].
    split; [intros pos Hin; exact (Hreads _ Hin)|].
    destruct e; exact He.
  - destruct Hspec as [-> _]. exists ∅, [], None.
    split; [reflexivity|]. split; [reflexivity|].
    split; [|split; [|reflexivity]];
      intros pos Hin; exfalso; exact (not_elem_of_nil _ Hin).
Qed.

(* ===================================================================== *)
(** * Retries                                                             *)
(* ===================================================================== *)

Lemma calls_app (l k : list event) : calls (l ++ k) = (calls l + calls k)%nat.
Proof. unfold calls. rewrite List.filter_app, length_app. reflexivity. Qed.

Lemma backoffs_app (l k : list event) :
  backoffs (l ++ k) = (backoffs l + backoffs k)%nat.
Proof. unfold backoffs. rewrite List.filter_app, length_app. reflexivity. Qed.

Lemma io_bind_run {A B : Type} (c : io A) (k : A -> io B) (w : world) :
  (c ≫= k) w
  = match c w with
    | (Returned a, w') => k a w'
    | (Raised e, w') => (Raised e, w')
    | (NoFuel, w') => (NoFuel, w')
    end.
Proof. reflexivity. Qed.

Lemma truthy_take (payload : bytes) :
  payload <> [] -> truthy (take 1024 payload) = true.
Proof. destruct payload; [congruence | reflexivity]. Qed.

(** The retrying request towards one device with one request frame. *)
Section Retries.
Context (host : str) (port : Z) (packet : bytes).

Lemma calls_failed_attempts (n : nat) :
  calls (failed_attempts host port packet n) = n.
Proof.
  induction n as [|n IH]; [reflexivity|].
  unfold calls in *. simpl. rewrite IH. reflexivity.
Qed.

Lemma backoffs_failed_attempts (n : nat) :
  backoffs (failed_attempts host port packet n) = n.
Proof.
  induction n as [|n IH]; [reflexivity|].
  unfold backoffs in *. simpl. rewrite IH. reflexivity.
Qed.

Lemma send_udp_no_data (w : world) :
  no_data (network w (exchanges w)) ->
  _send_udp host port packet w
  = (Returned [],
     World (network w) (S (exchanges w))
           (events w ++ [Call_send_udp host port packet])).
Proof.
  intros Hno. unfold _send_udp.
  destruct Hno as [-> | [-> | ->]]; reflexivity.
Qed.

Lemma send_udp_datagram (payload : bytes) (w : world) :
  network w (exchanges w) = Datagram payload ->
  _send_udp host port packet w
  = (Returned (take 1024 payload),
     World (network w) (S (exchanges w))
           (events w ++ [Call_send_udp host port packet])).
Proof. intros Hnet. unfold _send_udp. rewrite Hnet. reflexivity. Qed.

(** The loop when none of the attempts left yields data. *)
Lemma udp_request_loop_no_data (retries : Z) (attempts : list Z) :
  forall w : world,
    (forall j, (j < length attempts)%nat ->
               no_data (network w (exchanges w + j)%nat)) ->
    exists w',
      udp_request_loop host port packet retries attempts w = (Returned [], w')
      /\ network w' = network w
      /\ exchanges w' = (exchanges w + length attempts)%nat
      /\ events w'
         = events w ++ failed_attempts host port packet (length attempts).
Proof.
  induction attempts as [|attempt rest IH]; intros w Hno.
  - exists w. simpl. rewrite Nat.add_0_r, app_nil_r. repeat split.
  - cbn [udp_request_loop]. rewrite io_bind_run.
    rewrite send_udp_no_data
      by (rewrite <- (Nat.add_0_r (exchanges w)); apply Hno; simpl; lia).
    cbn [truthy]. rewrite io_bind_run. cbn [sleep network exchanges events].
    destruct (IH (World (network w) (S (exchanges w))
                    ((events w ++ [Call_send_udp host port packet])
                     ++ [Sleep (1 # 2)])))
      as (w' & Hrun & Hnet & Hex & Hev).
    { intros j Hj. cbn [network exchanges].
      replace (S (exchanges w) + j)%nat with (exchanges w + S j)%nat by lia.
      apply Hno. simpl. lia. }
    exists w'. rewrite Hrun. cbn [network exchanges events] in Hnet, Hex, Hev.
    split; [reflexivity|]. split; [exact Hnet|].
    split; [rewrite Hex; simpl; lia|].
    rewrite Hev, <- !app_assoc. reflexivity.
Qed.

(** The loop when attempt [k] of those left is the first to yield data. *)
Lemma udp_request_loop_data (retries : Z) (k : nat) :
  forall (attempts : list Z) (w : world) (payload : bytes),
    (k < length attempts)%nat ->
    (forall j, (j < k)%nat -> no_data (network w (exchanges w + j)%nat)) ->
    network w (exchanges w + k)%nat = Datagram payload ->
    payload <> [] ->
    exists w',
      udp_request_loop host port packet retries attempts w
      = (Returned (take 1024 payload), w')
      /\ network w' = network w
      /\ exchanges w' = (exchanges w + k + 1)%nat
      /\ events w'
         = events w ++ failed_attempts host port packet k
           ++ [Call_send_udp host port packet].
Proof.
  induction k as [|k IH]; intros attempts w payload Hk Hno Hdata Hne;
    (destruct attempts as [|attempt rest]; [simpl in Hk; lia|]);
    cbn [udp_request_loop]; rewrite io_bind_run.
  - rewrite Nat.add_0_r in Hdata.
    rewrite (send_udp_datagram _ _ Hdata), (truthy_take _ Hne).
    eexists. split; [reflexivity|]. cbn [network exchanges events].
    split; [reflexivity|]. split; [lia | reflexivity].
  - rewrite send_udp_no_data
      by (rewrite <- (Nat.add_0_r (exchanges w)); apply Hno; lia).
    cbn [truthy]. rewrite io_bind_run. cbn [sleep network exchanges events].
    destruct (IH rest
                (World (network w) (S (exchanges w))
                   ((events w ++ [Call_send_udp host port packet])
                    ++ [Sleep (1 # 2)])) payload)
      as (w' & Hrun & Hnet & Hex & Hev).
    { simpl in Hk. lia. }
    { intros j Hj. cbn [network exchanges].
      replace (S (exchanges w) + j)%nat with (exchanges w + S j)%nat by lia.
      apply Hno. lia. }
    { cbn [network exchanges].
      replace (S (exchanges w) + k)%nat with (exchanges w + S k)%nat by lia.
      exact Hdata. }
    { exact Hne. }
    exists w'. rewrite Hrun. cbn [network exchanges events] in Hnet, Hex, Hev.
    split; [reflexivity|]. split; [exact Hnet|].
    split; [rewrite Hex; lia|].
    rewrite Hev, <- !app_assoc. reflexivity.
Qed.

(** The loop on a network where the socket can be opened at every attempt
    left: it returns, and it returns [b""] only once every attempt left has
    gone without data. *)
Lemma udp_request_loop_returns (retries : Z) (attempts : list Z) :
  forall w : world,
    (forall j, (j < length attempts)%nat ->
               network w (exchanges w + j)%nat <> NoSocket) ->
    exists data w',
      udp_request_loop host port packet retries attempts w = (Returned data, w')
      /\ (data = [] ->
          (forall j, (j < length attempts)%nat ->
                     no_data (network w (exchanges w + j)%nat))
          /\ exchanges w' = (exchanges w + length attempts)%nat).
Proof.
  induction attempts as [|attempt rest IH]; intros w Hsock.
  - exists [], w. split; [reflexivity|]. intros _.
    split; [intros j Hj; simpl in Hj; lia | simpl; lia].
  - cbn [udp_request_loop]. rewrite io_bind_run.
    assert (Hhead : no_data (network w (exchanges w))
                    \/ exists b payload,
                         network w (exchanges w) = Datagram (b :: payload)).
    { pose proof (Hsock 0%nat ltac:(simpl; lia)) as H0.
      rewrite Nat.add_0_r in H0.
      destruct (network w (exchanges w)) as [| | |[|b payload]];
        [congruence | left; right; left; reflexivity | left; left; reflexivity
        | left; right; right; reflexivity | right; eauto]. }
    destruct Hhead as [Hno | (b & payload & Hdata)].
    + rewrite (send_udp_no_data _ Hno).
      cbn [truthy]. rewrite io_bind_run. cbn [sleep network exchanges events].
      destruct (IH (World (network w) (S (exchanges w))
                      ((events w ++ [Call_send_udp host port packet])
                       ++ [Sleep (1 # 2)])))
        as (data & w' & Hrun & Hempty).
      { intros j Hj. cbn [network exchanges].
        replace (S (exchanges w) + j)%nat with (exchanges w + S j)%nat by lia.
        apply Hsock. simpl. lia. }
      exists data, w'. split; [exact Hrun|]. intros Hdata.
      destruct (Hempty Hdata) as [Hrest Hex]. cbn [network exchanges] in Hrest, Hex.
      split; [|rewrite Hex; simpl; lia].
      intros [|j] Hj.
      * rewrite Nat.add_0_r. exact Hno.
      * replace (exchanges w + S j)%nat with (S (exchanges w) + j)%nat by lia.
        apply Hrest. simpl in Hj. lia.
    + rewrite (send_udp_datagram _ _ Hdata), truthy_take by discriminate.
      eexists _, _. split; [reflexivity|]. intros Habs. discriminate Habs.
Qed.

(** C3, amended.  With N the number of retries (none when [retries] is
    negative): if attempt k+1 <= N is the first to receive a non-empty
    datagram, [udp_request] returns what [_send_udp] received at once, after
    k+1 calls and k sleeps of 0.5 s.  If no attempt yields data, it makes
    exactly N calls, each followed by a sleep of 0.5 s (N sleeps, one of them
    after the last attempt), and returns [b""].  Whenever [_send_udp] returns
    at every attempt (the socket can be opened), [udp_request] raises
    nothing, and [b""] is its only failure outcome: it is returned only
    after N attempts without data. *)
Theorem udp_request_attempts (retries : Z) (w : world) :
  (forall (k : nat) (payload : bytes),
      (k < Z.to_nat retries)%nat ->
      (forall j, (j < k)%nat -> no_data (network w (exchanges w + j)%nat)) ->
      network w (exchanges w + k)%nat = Datagram payload ->
      payload <> [] ->
      exists w',
        udp_request host port packet retries w
        = (Returned (take 1024 payload), w')
        /\ exchanges w' = (exchanges w + k + 1)%nat
        /\ events w'
           = events w ++ failed_attempts host port packet k
             ++ [Call_send_udp host port packet]
        /\ calls (events w') = (calls (events w) + k + 1)%nat
        /\ backoffs (events w') = (backoffs (events w) + k)%nat)
  /\ ((forall j, (j < Z.to_nat retries)%nat ->
                 no_data (network w (exchanges w + j)%nat)) ->
      exists w',
        udp_request host port packet retries w = (Returned [], w')
        /\ exchanges w' = (exchanges w + Z.to_nat retries)%nat
        /\ events w'
           = events w ++ failed_attempts host port packet (Z.to_nat retries)
        /\ calls (events w') = (calls (events w) + Z.to_nat retries)%nat
        /\ backoffs (events w') = (backoffs (events w) + Z.to_nat retries)%nat)
  /\ ((forall j, (j < Z.to_nat retries)%nat ->
                 network w (exchanges w + j)%nat <> NoSocket) ->
      exists data w',
        udp_request host port packet retries w = (Returned data, w')
        /\ (data = [] ->
            (forall j, (j < Z.to_nat retries)%nat ->
                       no_data (network w (exchanges w + j)%nat))
            /\ exchanges w' = (exchanges w + Z.to_nat retries)%nat)).
Proof.
  unfold udp_request. split; [|split].
  - intros k payload Hk Hno Hdata Hne.
    destruct (udp_request_loop_data retries k
                (seqZ 0 retries) w payload) as (w' & Hrun & _ & Hex & Hev);
      [rewrite length_seqZ; exact Hk | exact Hno | exact Hdata | exact Hne |].
    exists w'. split; [exact Hrun|]. split; [exact Hex|]. split; [exact Hev|].
    rewrite Hev, !calls_app, !backoffs_app.
    rewrite calls_failed_attempts, backoffs_failed_attempts.
    unfold calls, backoffs. simpl. lia.
  - intros Hno.
    destruct (udp_request_loop_no_data retries
                (seqZ 0 retries) w) as (w' & Hrun & _ & Hex & Hev);
      [rewrite length_seqZ; exact Hno |].
    rewrite length_seqZ in Hex, Hev.
    exists w'. split; [exact Hrun|]. split; [exact Hex|]. split; [exact Hev|].
    rewrite Hev, calls_app, backoffs_app.
    rewrite calls_failed_attempts, backoffs_failed_attempts. split; reflexivity.
  - intros Hsock.
    destruct (udp_request_loop_returns retries (seqZ 0 retries) w)
      as (data & w' & Hrun & Hempty);
      [rewrite length_seqZ; exact Hsock |].
    rewrite length_seqZ in Hempty. exists data, w'. split; assumption.
Qed.

End Retries.

(** C3, as stated, fails: with the default of three retries and no data on
    any attempt, three sleeps of 0.5 s are made, not two; the third follows
    the last attempt. *)
Lemma udp_request_sleeps_after_last_attempt :
  exists w',
    udp_request (str_lit "vento") 4000 [xfd; xfd] default_retries
      (World silent_network 0 [])
    = (Returned [], w')
    /\ calls (events w') = 3%nat
    /\ backoffs (events w') = 3%nat
    /\ backoffs (events w') <> (3 - 1)%nat
    /\ last (events w') = Some (Sleep (1 # 2)).
Proof.
  eexists. split; [vm_compute; reflexivity|].
  split; [reflexivity|]. split; [reflexivity|].
  split; [vm_compute; discriminate | reflexivity].
Qed.

Lemma udp_request_attempts_witness :
  (exists w',
      udp_request (str_lit "vento") 4000 [xfd; xfd] 3
        (World (second_try_network [x06; x01]) 0 [])
      = (Returned (take 1024 [x06; x01]), w')
      /\ exchanges w' = (0 + 1 + 1)%nat
      /\ events w'
         = [] ++ failed_attempts (str_lit "vento") 4000 [xfd; xfd] 1
           ++ [Call_send_udp (str_lit "vento") 4000 [xfd; xfd]]
      /\ calls (events w') = (calls [] + 1 + 1)%nat
      /\ backoffs (events w') = (backoffs [] + 1)%nat)
  /\ (exists w',
        udp_request (str_lit "vento") 4000 [xfd; xfd] 3
          (World silent_network 0 [])
        = (Returned [], w')
        /\ exchanges w' = (0 + Z.to_nat 3)%nat
        /\ events w'
           = [] ++ failed_attempts (str_lit "vento") 4000 [xfd; xfd] (Z.to_nat 3)
        /\ calls (events w') = (calls [] + Z.to_nat 3)%nat
        /\ backoffs (events w') = (backoffs [] + Z.to_nat 3)%nat)
  /\ (exists data w',
        udp_request (str_lit "vento") 4000 [xfd; xfd] 3
          (World silent_network 0 [])
        = (Returned data, w')
        /\ (data = [] ->
            (forall j, (j < Z.to_nat 3)%nat ->
                       no_data (silent_network (0 + j)%nat))
            /\ exchanges w' = (0 + Z.to_nat 3)%nat)).
Proof.
  split; [|split].
  - apply (proj1 (udp_request_attempts (str_lit "vento") 4000 [xfd; xfd] 3
                    (World (second_try_network [x06; x01]) 0 [])) 1%nat [x06; x01]).
    + vm_compute. lia.
    + intros j Hj. assert (j = 0%nat) as -> by lia. left. reflexivity.
    + reflexivity.
    + discriminate.
  - apply (proj1 (proj2 (udp_request_attempts (str_lit "vento") 4000 [xfd; xfd] 3
                           (World silent_network 0 [])))).
    intros j Hj. left. reflexivity.
  - apply (proj2 (proj2 (udp_request_attempts (str_lit "vento") 4000 [xfd; xfd] 3
                           (World silent_network 0 [])))).
    intros j Hj. discriminate.
Defined.

(* ===================================================================== *)
(** * The poll cycle                                                      *)
(* ===================================================================== *)

(** C4, as stated, fails: when the device answers twenty zero bytes, data is
    returned, its decoding is empty, and the cycle returns the empty mapping
    as its result; nothing is raised. *)
Lemma async_update_data_empty_decode :
  exists packet data w',
    build_read_packet (device_id default_coordinator)
      (password default_coordinator) (params default_coordinator)
    = Returned packet
    /\ udp_request (host default_coordinator) (port default_coordinator) packet
         default_retries (World zeros_network 0 [])
       = (Returned data, w')
    /\ data <> []
    /\ parse_ventoexpert_response data = Returned ∅
    /\ _async_update_data default_coordinator (World zeros_network 0 [])
       = (Returned ∅, w').
Proof.
  eexists _, _, _. split; [vm_compute; reflexivity|].
  split; [vm_compute; reflexivity|].
  split; [discriminate|].
  split; vm_compute; reflexivity.
Qed.

Lemma pure_run {A : Type} (o : outcome A) (w : world) : pure o w = (o, w).
Proof. reflexivity. Qed.

(** The [try] block once the request is built and the retrying request has
    returned. *)
Lemma update_body_run (self : VentoExpertCoordinator) (w w' : world)
    (packet data : bytes) :
  build_read_packet (device_id self) (password self) (params self)
  = Returned packet ->
  udp_request (host self) (port self) packet default_retries w
  = (Returned data, w') ->
  update_body self w
  = if negb (truthy data)
    then (Raised (UpdateFailed (Plain "Keine Antwort vom Gerät")), w')
    else (parse_ventoexpert_response data, w').
Proof.
  intros Hbuild Hrequest. unfold update_body.
  rewrite io_bind_run, pure_run, Hbuild.
  rewrite io_bind_run, Hrequest.
  destruct (truthy data); cbn [negb]; [|reflexivity].
  rewrite io_bind_run, pure_run.
  destruct (parse_ventoexpert_response data); reflexivity.
Qed.

(** C4, amended.  In a poll cycle whose request is built, when the retrying
    request returns no data the cycle fails: [UpdateFailed] is raised and no
    mapping is returned.  When it returns data the decoded mapping is the
    result of the cycle, the empty mapping included: an empty decoding is not
    a failure. *)
Theorem async_update_data_outcome (self : VentoExpertCoordinator) (w w' : world)
    (packet data : bytes) :
  build_read_packet (device_id self) (password self) (params self)
  = Returned packet ->
  udp_request (host self) (port self) packet default_retries w
  = (Returned data, w') ->
  (data = [] ->
   _async_update_data self w
   = (Raised (UpdateFailed
                (Formatted "Fehler beim Abrufen der Daten: "
                   (UpdateFailed (Plain "Keine Antwort vom Gerät")))), w'))
  /\ (data <> [] ->
      exists parsed,
        parse_ventoexpert_response data = Returned parsed
        /\ _async_update_data self w = (Returned parsed, w')).
Proof.
  intros Hbuild Hrequest.
  unfold _async_update_data.
  rewrite (update_body_run self w w' packet data Hbuild Hrequest). split.
  - intros ->. reflexivity.
  - intros Hdata.
    destruct (parse_returns data) as [parsed Hparsed].
    exists parsed. split; [exact Hparsed|].
    destruct data as [|b data]; [congruence|].
    cbn [truthy negb]. rewrite Hparsed. reflexivity.
Qed.

Lemma async_update_data_outcome_witness :
  let w := World zeros_network 0 [] in
  let w' := World zeros_network 1 [Call_send_udp (str_lit "vento") 4000 default_packet] in
  (replicate 20 x00 = [] ->
   _async_update_data default_coordinator w
   = (Raised (UpdateFailed
                (Formatted "Fehler beim Abrufen der Daten: "
                   (UpdateFailed (Plain "Keine Antwort vom Gerät")))), w'))
  /\ (replicate 20 x00 <> [] ->
      exists parsed,
        parse_ventoexpert_response (replicate 20 x00) = Returned parsed
        /\ _async_update_data default_coordinator w = (Returned parsed, w')).
Proof.
  apply (async_update_data_outcome default_coordinator
           (World zeros_network 0 [])
           (World zeros_network 1 [Call_send_udp (str_lit "vento") 4000 default_packet])
           default_packet (replicate 20 x00)).
  - vm_compute. reflexivity.
  - vm_compute. reflexivity.
Defined.

(* ===================================================================== *)
(** * Further properties of the request frame                             *)
(* ===================================================================== *)

Lemma sum_app (l k : bytes) : sum (l ++ k) = sum l + sum k.
Proof.
  induction l as [|b l IH]; [reflexivity|].
  change ((b :: l) ++ k) with (b :: (l ++ k)). rewrite !sum_cons, IH. lia.
Qed.

Lemma sum_permutation (l k : bytes) : l ≡ₚ k -> sum l = sum k.
Proof.
  induction 1 as [|b l k _ IH|a b l|l k m _ IH1 _ IH2].
  - reflexivity.
  - rewrite !sum_cons, IH. reflexivity.
  - rewrite !sum_cons. lia.
  - congruence.
Qed.

Lemma mod_65536_low (s : Z) : (s mod 65536) mod 256 = s mod 256.
Proof.
  change 65536 with (256 * 256). rewrite Z.rem_mul_r by lia.
  rewrite (Z.mul_comm 256), Z.mod_add by lia. apply Z.mod_mod. lia.
Qed.

Lemma mod_65536_high (s : Z) : (s mod 65536 / 256) mod 256 = (s / 256) mod 256.
Proof.
  change 65536 with (256 * 256). rewrite Z.rem_mul_r by lia.
  rewrite (Z.mul_comm 256), Z.div_add by lia.
  rewrite (Z.div_small (s mod 256)) by (apply Z.mod_pos_bound; lia).
  apply Z.mod_mod. lia.
Qed.

(** X1.  [calc_checksum] raises on no packet and returns exactly two bytes:
    first the sum of the packet modulo 256, then the next eight bits of the
    sum. *)
Theorem calc_checksum_bytes (packet : bytes) :
  exists lo hi,
    calc_checksum packet = Returned [lo; hi]
    /\ int_of lo = sum packet mod 256
    /\ int_of hi = (sum packet / 256) mod 256.
Proof.
  unfold calc_checksum. rewrite land_65535, shiftr_8, !land_255.
  set (s := sum packet).
  assert (Hlo : 0 <= (s mod 65536) mod 256 < 256) by (apply Z.mod_pos_bound; lia).
  assert (Hhi : 0 <= (s mod 65536 / 256) mod 256 < 256)
    by (apply Z.mod_pos_bound; lia).
  exists (the_byte ((s mod 65536) mod 256)),
         (the_byte ((s mod 65536 / 256) mod 256)).
  simpl. rewrite !byte_of_int_the_byte by assumption.
  rewrite !int_of_the_byte by assumption.
  rewrite mod_65536_low, mod_65536_high. repeat split.
Qed.

(** X2.  The checksum depends on the bytes of the packet and not on their
    order: two packets that are permutations of each other have the same
    checksum. *)
Theorem calc_checksum_permutation (packet packet' : bytes) :
  packet ≡ₚ packet' -> calc_checksum packet = calc_checksum packet'.
Proof.
  intros Hperm. unfold calc_checksum.
  rewrite (sum_permutation _ _ Hperm). reflexivity.
Qed.

Lemma calc_checksum_permutation_witness :
  calc_checksum [x02; x10; x41; x42] = calc_checksum [x02; x10; x42; x41].
Proof.
  apply (calc_checksum_permutation [x02; x10; x41; x42] [x02; x10; x42; x41]).
  do 2 apply perm_skip. apply perm_swap.
Defined.

Lemma is_ascii_dec (s : str) : {is_ascii s} + {~ is_ascii s}.
Proof.
  unfold is_ascii. exact (decide _).
Defined.

Lemma build_read_packet_raises_id (device_id password : str) (params : list Z) :
  ~ is_ascii device_id ->
  build_read_packet device_id password params = Raised UnicodeEncodeError.
Proof.
  intros H. unfold build_read_packet.
  rewrite (encode_ascii_raises _ H). reflexivity.
Qed.

Lemma build_read_packet_raises_password (device_id password : str)
    (params : list Z) :
  is_ascii device_id -> ~ is_ascii password ->
  build_read_packet device_id password params = Raised UnicodeEncodeError.
Proof.
  intros Hid H. unfold build_read_packet.
  rewrite (encode_ascii_ok _ Hid), (encode_ascii_raises _ H). reflexivity.
Qed.

(** X3.  [build_read_packet] raises [UnicodeEncodeError] exactly when the
    device id or the password holds a character that is not ASCII; it raises
    nothing else. *)
Theorem build_read_packet_raises (device_id password : str) (params : list Z) :
  (build_read_packet device_id password params = Raised UnicodeEncodeError
   <-> ~ (is_ascii device_id /\ is_ascii password))
  /\ (forall e, build_read_packet device_id password params = Raised e ->
                e = UnicodeEncodeError)
  /\ build_read_packet device_id password params <> NoFuel.
Proof.
  destruct (is_ascii_dec device_id) as [Hid|Hid].
  - destruct (is_ascii_dec password) as [Hpwd|Hpwd].
    + destruct (build_read_packet_frame device_id password params Hid Hpwd)
        as (lo & hi & E & _).
      rewrite E. split; [|split; [intros e He|]; discriminate].
      split; [discriminate|]. intros H. exfalso. apply H. split; assumption.
    + rewrite (build_read_packet_raises_password _ _ _ Hid Hpwd).
      split; [|split; [intros e He; congruence | discriminate]].
      split; [intros _ [_ H]; contradiction | reflexivity].
  - rewrite (build_read_packet_raises_id _ _ _ Hid).
    split; [|split; [intros e He; congruence | discriminate]].
    split; [intros _ [H _]; contradiction | reflexivity].
Qed.

Lemma encode_param_mod (param : Z) :
  encode_param (param mod 65536) = encode_param param.
Proof.
  unfold encode_param. rewrite !shiftr_8, !land_255.
  rewrite mod_65536_low, mod_65536_high. reflexivity.
Qed.

(** X4.  Only the low sixteen bits of a parameter id reach the frame: an id
    of any size, negative ones included, gives the frame of its residue
    modulo 65536, and nothing is raised for it. *)
Theorem build_read_packet_id_bits (device_id password : str) (params : list Z) :
  build_read_packet device_id password (map (fun param => param mod 65536) params)
  = build_read_packet device_id password params.
Proof.
  unfold build_read_packet. rewrite !data_block_loop_spec.
  replace (flat_map encode_param (map (fun param => param mod 65536) params))
    with (flat_map encode_param params); [reflexivity|].
  induction params as [|param rest IH]; [reflexivity|].
  simpl. rewrite IH, encode_param_mod. reflexivity.
Qed.

(** X5.  For a device id of at most 16 ASCII characters and a password of at
    most 4, the frame has between 28 + n and 28 + 3n bytes for n parameter
    ids, and exactly 28 + n bytes when every id is at most 0xFF. *)
Theorem build_read_packet_length (device_id password : str) (params : list Z) :
  is_ascii device_id -> len device_id <= 16 ->
  is_ascii password -> len password <= 4 ->
  exists frame,
    build_read_packet device_id password params = Returned frame
    /\ 28 + len params <= len frame <= 28 + 3 * len params
    /\ (Forall (fun param => 0 <= param <= 255) params ->
        len frame = 28 + len params).
Proof.
  intros Hid Hidlen Hpwd Hpwdlen.
  destruct (build_read_packet_frame device_id password params Hid Hpwd)
    as (lo & hi & Hframe & _).
  eexists. split; [exact Hframe|].
  rewrite <- len_ascii_bytes in Hidlen, Hpwdlen.
  destruct (ljust_short 16 x00 _ Hidlen) as [_ Lid].
  destruct (ljust_short 4 x00 _ Hpwdlen) as [_ Lpwd].
  destruct (len_flat_map_encode_param params) as [Hb Hone].
  assert (L : len ([xfd; xfd]
                   ++ ([x02; x10] ++ ljust 16 x00 (ascii_bytes device_id)
                       ++ [x04] ++ ljust 4 x00 (ascii_bytes password)
                       ++ [x01] ++ flat_map encode_param params) ++ [lo; hi])
              = 28 + len (flat_map encode_param params)).
  { repeat rewrite len_app. rewrite Lid, Lpwd. unfold len. simpl length. lia. }
  rewrite L. split; [lia|]. intros Hall. rewrite (Hone Hall). reflexivity.
Qed.

Lemma build_read_packet_length_witness :
  exists frame,
    build_read_packet (str_lit "DEFAULT_DEVICEID") (str_lit "1111")
      [0x0001; 0x0102; 0x00B7]
    = Returned frame
    /\ 28 + len [0x0001; 0x0102; 0x00B7] <= len frame
       <= 28 + 3 * len [0x0001; 0x0102; 0x00B7]
    /\ (Forall (fun param => 0 <= param <= 255) [0x0001; 0x0102; 0x00B7] ->
        len frame = 28 + len [0x0001; 0x0102; 0x00B7]).
Proof.
  apply (build_read_packet_length (str_lit "DEFAULT_DEVICEID") (str_lit "1111")
           [0x0001; 0x0102; 0x00B7]).
  - ascii_literal.
  - vm_compute. discriminate.
  - ascii_literal.
  - vm_compute. discriminate.
Defined.

(** X6.  A frame that [build_read_packet] returns carries its own checksum:
    [calc_checksum] of the frame without its first two and last two bytes
    returns the last two bytes. *)
Theorem build_read_packet_checksum_verifies (device_id password : str)
    (params : list Z) (frame : bytes) :
  build_read_packet device_id password params = Returned frame ->
  calc_checksum (drop 2 (take (length frame - 2) frame))
  = Returned (drop (length frame - 2) frame).
Proof.
  intros Hframe.
  destruct (is_ascii_dec device_id) as [Hid|Hid];
    [|rewrite (build_read_packet_raises_id _ _ _ Hid) in Hframe; discriminate].
  destruct (is_ascii_dec password) as [Hpwd|Hpwd];
    [|rewrite (build_read_packet_raises_password _ _ _ Hid Hpwd) in Hframe;
      discriminate].
  destruct (build_read_packet_frame device_id password params Hid Hpwd)
    as (lo & hi & Hbuilt & Hsum).
  cbv zeta in Hbuilt, Hsum.
  match type of Hsum with context [sum ?b] => set (body := b) in * end.
  destruct (calc_checksum_spec body) as (lo' & hi' & Hc & Hsum').
  assert (Hlo : lo' = lo /\ hi' = hi).
  { pose proof (int_of_range lo). pose proof (int_of_range hi).
    pose proof (int_of_range lo'). pose proof (int_of_range hi').
    split; apply int_of_inj; lia. }
  destruct Hlo as [-> ->].
  assert (E : frame = ([xfd; xfd] ++ body) ++ [lo; hi]).
  { rewrite Hbuilt in Hframe. injection Hframe as <-.
    exact (app_assoc [xfd; xfd] body [lo; hi]). }
  rewrite E.
  replace (length (([xfd; xfd] ++ body) ++ [lo; hi]) - 2)%nat
    with (length ([xfd; xfd] ++ body))
    by (rewrite (length_app ([xfd; xfd] ++ body)); simpl; lia).
  rewrite take_app_length, drop_app_length.
  change (drop 2 ([xfd; xfd] ++ body)) with body. exact Hc.
Qed.

Lemma build_read_packet_checksum_verifies_witness :
  calc_checksum (drop 2 (take (length default_packet - 2) default_packet))
  = Returned (drop (length default_packet - 2) default_packet).
Proof.
  apply (build_read_packet_checksum_verifies (str_lit "DEFAULT_DEVICEID")
           (str_lit "1111") ALL_PARAMS default_packet).
  vm_compute. reflexivity.
Defined.

(* ===================================================================== *)
(** * Further properties of the response parser                           *)
(* ===================================================================== *)

Lemma decode_fields_tuple (id a b c : byte) (tl : bytes) :
  int_of id = 0x64 ->
  decode_fields (id :: a :: b :: c :: tl)
  = (int_of id, VTuple [int_of a; int_of b; int_of c]) :: decode_fields tl.
Proof.
  intros E. cbn [decode_fields length Nat.leb]. rewrite E. reflexivity.
Qed.

Lemma decode_fields_word (id lo hi : byte) (tl : bytes) :
  int_of id = 0x4A \/ int_of id = 0x4B ->
  decode_fields (id :: lo :: hi :: tl)
  = (int_of id, VInt (int_of lo + 256 * int_of hi)) :: decode_fields tl.
Proof.
  intros E. cbn [decode_fields length Nat.leb].
  destruct E as [E|E]; rewrite E; reflexivity.
Qed.

Lemma decode_fields_byte (id a b : byte) (tl : bytes) :
  int_of id <> 0x64 -> int_of id <> 0x4A -> int_of id <> 0x4B ->
  decode_fields (id :: a :: b :: tl)
  = (int_of id, VInt (int_of a)) :: decode_fields (b :: tl).
Proof.
  intros H64 H4a H4b.
  change (decode_fields (id :: a :: b :: tl))
    with (if int_of id =? 0x64 then
            match tl with
            | c :: tl' =>
                (int_of id, VTuple [int_of a; int_of b; int_of c])
                :: decode_fields tl'
            | [] => []
            end
          else if (int_of id =? 0x4A) || (int_of id =? 0x4B) then
            (int_of id, VInt (int_of a + 256 * int_of b)) :: decode_fields tl
          else (int_of id, VInt (int_of a)) :: decode_fields (b :: tl)).
  apply Z.eqb_neq in H64, H4a, H4b. rewrite H64, H4a, H4b. reflexivity.
Qed.

Lemma index_first (pre rest : bytes) :
  x06 ∉ pre -> index (pre ++ x06 :: rest) 0x06 = Returned (len pre).
Proof.
  unfold index. replace (len pre) with (0 + len pre) by lia. generalize 0.
  induction pre as [|b pre IH]; intros i0 Hnot.
  - unfold len. simpl. rewrite Z.add_0_r. reflexivity.
  - rewrite not_elem_of_cons in Hnot. destruct Hnot as [Hb Hpre].
    cbn [app index_from].
    destruct (Z.eqb_spec (int_of b) 0x06) as [E|E].
    + exfalso. apply Hb. symmetry. apply int_of_inj. exact E.
    + rewrite (IH (i0 + 1) Hpre). f_equal. unfold len. simpl length. lia.
Qed.

Lemma parse_after_first_marker_aux (pre rest : bytes) :
  x06 ∉ pre ->
  20 <= len (pre ++ x06 :: rest) ->
  parse_ventoexpert_response (pre ++ x06 :: rest)
  = Returned (store (decode_fields rest) ∅).
Proof.
  intros Hpre Hlen.
  rewrite (parse_accepted _ _ Hlen (index_first pre rest Hpre)).
  replace (Z.to_nat (len pre + 1)) with (length (pre ++ [x06]))
    by (rewrite length_app; unfold len; simpl; lia).
  replace (pre ++ x06 :: rest) with ((pre ++ [x06]) ++ rest)
    by (rewrite <- app_assoc; reflexivity).
  rewrite drop_app_length. reflexivity.
Qed.

(** X7.  The bytes before the first 0x06 count towards the minimum length
    of 20 bytes and for nothing else: the result is decoded from the bytes
    that follow the first 0x06, whatever precedes it. *)
Theorem parse_after_first_marker (pre rest : bytes) :
  x06 ∉ pre ->
  20 <= len (pre ++ x06 :: rest) ->
  parse_ventoexpert_response (pre ++ x06 :: rest)
  = Returned (store (decode_fields rest) ∅).
Proof. exact (parse_after_first_marker_aux pre rest). Qed.

Lemma parse_after_first_marker_witness :
  parse_ventoexpert_response (replicate 16 xff ++ x06 :: [x01; x05; x06; x07; xaa; xbb])
  = Returned (store (decode_fields [x01; x05; x06; x07; xaa; xbb]) ∅).
Proof.
  apply (parse_after_first_marker (replicate 16 xff) [x01; x05; x06; x07; xaa; xbb]).
  - intros H. apply elem_of_replicate in H. destruct H as [H _]. discriminate H.
  - vm_compute. discriminate.
Defined.

(** X8.  When the first 0x06 is one of the last three bytes of the data, the
    loop is not entered and the result is the empty mapping. *)
Theorem parse_marker_at_end (data : bytes) (func_index : Z) :
  20 <= len data ->
  index data 0x06 = Returned func_index ->
  len data - 3 <= func_index ->
  parse_ventoexpert_response data = Returned ∅.
Proof.
  intros Hlen Hidx Hend.
  rewrite (parse_accepted data func_index Hlen Hidx).
  pose proof (index_from_spec data 0x06 0) as Hspec.
  unfold index in Hidx. rewrite Hidx in Hspec.
  destruct Hspec as (pre & b & rest & Hdata & Hi & _ & _).
  rewrite decode_fields_short; [reflexivity|].
  rewrite length_drop. unfold len in *. lia.
Qed.

Lemma parse_marker_at_end_witness :
  parse_ventoexpert_response (replicate 17 x00 ++ [x06; x01; x05]) = Returned ∅.
Proof.
  apply (parse_marker_at_end (replicate 17 x00 ++ [x06; x01; x05]) 17).
  - vm_compute. discriminate.
  - reflexivity.
  - vm_compute. discriminate.
Defined.

Lemma decode_field_bytes (id : Z) (v : value) (b : byte) (rest : bytes) :
  entry_fits id v ->
  decode_fields (field_bytes (id, v) ++ b :: rest)
  = (id, v) :: decode_fields (b :: rest).
Proof.
  intros (Hid & H64 & H4 & H1). unfold field_bytes. cbn [fst snd].
  assert (Eid : int_of (the_byte id) = id) by (apply int_of_the_byte; lia).
  destruct (Z.eq_dec id 0x64) as [E64|N64].
  - destruct (H64 E64) as (x & y & z & -> & Hx & Hy & Hz).
    cbn [fmap list_fmap app].
    rewrite decode_fields_tuple by (rewrite Eid; exact E64).
    rewrite Eid, !int_of_the_byte by lia. reflexivity.
  - destruct (Z.eq_dec id 0x4A) as [E4a|N4a];
      [|destruct (Z.eq_dec id 0x4B) as [E4b|N4b]].
    + destruct (H4 (or_introl E4a)) as (n & -> & Hn).
      replace ((id =? 0x4A) || (id =? 0x4B)) with true
        by (symmetry; apply orb_true_iff; left; apply Z.eqb_eq; exact E4a).
      cbn [app]. rewrite decode_fields_word by (rewrite Eid; left; exact E4a).
      assert (Hq : 0 <= n / 256 < 256)
        by (split; [apply Z.div_pos; lia | apply Z.div_lt_upper_bound; lia]).
      rewrite Eid, !int_of_the_byte
        by (try apply Z.mod_pos_bound; try exact Hq; lia).
      pose proof (Z.div_mod n 256 ltac:(lia)) as Hdm.
      replace (n mod 256 + 256 * (n / 256)) with n by lia. reflexivity.
    + destruct (H4 (or_intror E4b)) as (n & -> & Hn).
      replace ((id =? 0x4A) || (id =? 0x4B)) with true
        by (symmetry; apply orb_true_iff; right; apply Z.eqb_eq; exact E4b).
      cbn [app]. rewrite decode_fields_word by (rewrite Eid; right; exact E4b).
      assert (Hq : 0 <= n / 256 < 256)
        by (split; [apply Z.div_pos; lia | apply Z.div_lt_upper_bound; lia]).
      rewrite Eid, !int_of_the_byte
        by (try apply Z.mod_pos_bound; try exact Hq; lia).
      pose proof (Z.div_mod n 256 ltac:(lia)) as Hdm.
      replace (n mod 256 + 256 * (n / 256)) with n by lia. reflexivity.
    + destruct (H1 N64 N4a N4b) as (n & -> & Hn).
      replace ((id =? 0x4A) || (id =? 0x4B)) with false
        by (symmetry; apply orb_false_iff; split; apply Z.eqb_neq; assumption).
      cbn [app]. rewrite decode_fields_byte by (rewrite Eid; assumption).
      rewrite Eid, int_of_the_byte by lia. reflexivity.
Qed.

Lemma decode_flat_map_field_bytes (fields : list (Z * value)) (c1 c2 : byte) :
  Forall (fun field => entry_fits field.1 field.2) fields ->
  decode_fields (flat_map field_bytes fields ++ [c1; c2]) = fields.
Proof.
  induction 1 as [|[id v] fields Hfit _ IH]; [reflexivity|].
  cbn [flat_map]. rewrite <- app_assoc.
  destruct (flat_map field_bytes fields ++ [c1; c2]) as [|b rest] eqn:E.
  - exfalso. apply app_eq_nil in E. destruct E as [_ E]. discriminate E.
  - rewrite (decode_field_bytes id v b rest Hfit), IH. reflexivity.
Qed.

(** X9.  The parser inverts the layout of fields: after a header without
    0x06, the marker, any fields laid out by their width rule and two
    trailing bytes of any value, it returns those fields stored in order.
    The trailing bytes are not checked. *)
Theorem parse_round_trip (header : bytes) (fields : list (Z * value))
    (c1 c2 : byte) :
  x06 ∉ header ->
  Forall (fun field => entry_fits field.1 field.2) fields ->
  20 <= len (header ++ x06 :: flat_map field_bytes fields ++ [c1; c2]) ->
  parse_ventoexpert_response
    (header ++ x06 :: flat_map field_bytes fields ++ [c1; c2])
  = Returned (store fields ∅).
Proof.
  intros Hheader Hfields Hlen.
  rewrite (parse_after_first_marker_aux _ _ Hheader Hlen).
  rewrite (decode_flat_map_field_bytes _ _ _ Hfields). reflexivity.
Qed.

Lemma parse_round_trip_witness :
  parse_ventoexpert_response
    (replicate 16 x00 ++ x06 :: flat_map field_bytes sample_fields ++ [xaa; xbb])
  = Returned (store sample_fields ∅).
Proof.
  apply (parse_round_trip (replicate 16 x00) sample_fields xaa xbb).
  - intros H. apply elem_of_replicate in H. destruct H as [H _]. discriminate H.
  - unfold sample_fields, entry_fits.
    repeat (constructor; [cbn [fst snd];
      split; [lia|]; split; [|split]; intros;
      first [ exfalso; lia
            | do 3 eexists; split; [reflexivity | lia]
            | eexists; split; [reflexivity | lia]
            | match goal with H : _ \/ _ |- _ => destruct H; exfalso; lia end ] |]).
    constructor.
  - vm_compute. discriminate.
Defined.

(* ===================================================================== *)
(** * Further properties of the retrying request                          *)
(* ===================================================================== *)

Section MoreRetries.
Context (host : str) (port : Z) (packet : bytes).

(** X10.  With a retry count of zero or less nothing is sent and nothing is
    waited for: [udp_request] returns [b""] at once and leaves the world as
    it was. *)
Theorem udp_request_no_retries (retries : Z) (w : world) :
  retries <= 0 -> udp_request host port packet retries w = (Returned [], w).
Proof.
  intros H. unfold udp_request. rewrite seqZ_nil by exact H. reflexivity.
Qed.

Lemma send_udp_no_socket (w : world) :
  network w (exchanges w) = NoSocket ->
  _send_udp host port packet w
  = (Raised OSError,
     World (network w) (S (exchanges w))
           (events w ++ [Call_send_udp host port packet])).
Proof. intros Hnet. unfold _send_udp. rewrite Hnet. reflexivity. Qed.

Lemma udp_request_loop_no_socket (retries : Z) (k : nat) :
  forall (attempts : list Z) (w : world),
    (k < length attempts)%nat ->
    (forall j, (j < k)%nat -> no_data (network w (exchanges w + j)%nat)) ->
    network w (exchanges w + k)%nat = NoSocket ->
    exists w',
      udp_request_loop host port packet retries attempts w = (Raised OSError, w')
      /\ exchanges w' = (exchanges w + k + 1)%nat
      /\ events w'
         = events w ++ failed_attempts host port packet k
           ++ [Call_send_udp host port packet].
Proof.
  induction k as [|k IH]; intros attempts w Hk Hno Hsock;
    (destruct attempts as [|attempt rest]; [simpl in Hk; lia|]);
    cbn [udp_request_loop]; rewrite io_bind_run.
  - rewrite Nat.add_0_r in Hsock. rewrite (send_udp_no_socket _ Hsock).
    eexists. split; [reflexivity|]. cbn [exchanges events].
    split; [lia | reflexivity].
  - rewrite send_udp_no_data
      by (rewrite <- (Nat.add_0_r (exchanges w)); apply Hno; lia).
    cbn [truthy]. rewrite io_bind_run. cbn [sleep network exchanges events].
    destruct (IH rest
                (World (network w) (S (exchanges w))
                   ((events w ++ [Call_send_udp host port packet])
                    ++ [Sleep (1 # 2)])))
      as (w' & Hrun & Hex & Hev).
    { simpl in Hk. lia. }
    { intros j Hj. cbn [network exchanges].
      replace (S (exchanges w) + j)%nat with (exchanges w + S j)%nat by lia.
      apply Hno. lia. }
    { cbn [network exchanges].
      replace (S (exchanges w) + k)%nat with (exchanges w + S k)%nat by lia.
      exact Hsock. }
    exists w'. rewrite Hrun. cbn [network exchanges events] in Hex, Hev.
    split; [reflexivity|]. split; [rewrite Hex; lia|].
    rewrite Hev, <- !app_assoc. reflexivity.
Qed.

(** X11.  When the socket cannot be opened at an attempt, after attempts
    without data, the [OSError] leaves [udp_request] at once: it is not
    retried and no sleep follows it. *)
Theorem udp_request_no_socket (retries : Z) (w : world) (k : nat) :
  (k < Z.to_nat retries)%nat ->
  (forall j, (j < k)%nat -> no_data (network w (exchanges w + j)%nat)) ->
  network w (exchanges w + k)%nat = NoSocket ->
  exists w',
    udp_request host port packet retries w = (Raised OSError, w')
    /\ exchanges w' = (exchanges w + k + 1)%nat
    /\ events w'
       = events w ++ failed_attempts host port packet k
         ++ [Call_send_udp host port packet].
Proof.
  intros Hk Hno Hsock. unfold udp_request.
  apply udp_request_loop_no_socket; [rewrite length_seqZ|..]; assumption.
Qed.

Lemma request_event_failed_attempts (n : nat) :
  Forall (request_event host port packet) (failed_attempts host port packet n).
Proof.
  induction n as [|n IH]; [constructor|].
  cbn [failed_attempts]. repeat constructor. exact IH.
Qed.

(** What the loop does to the world and what it can return, on any
    network. *)
Lemma udp_request_loop_bounded (retries : Z) (attempts : list Z) :
  forall w : world,
    exists r w' new,
      udp_request_loop host port packet retries attempts w = (r, w')
      /\ network w' = network w
      /\ (exchanges w <= exchanges w' <= exchanges w + length attempts)%nat
      /\ events w' = events w ++ new
      /\ Forall (request_event host port packet) new
      /\ calls new = (exchanges w' - exchanges w)%nat
      /\ (backoffs new <= calls new)%nat
      /\ (r = Raised OSError
          \/ r = Returned []
          \/ exists payload,
               payload <> []
               /\ network w (exchanges w' - 1)%nat = Datagram payload
               /\ r = Returned (take 1024 payload)).
Proof.
  induction attempts as [|attempt rest IH]; intros w.
  - exists (Returned []), w, []. cbn [udp_request_loop].
    split; [reflexivity|]. split; [reflexivity|]. split; [simpl; lia|].
    split; [rewrite app_nil_r; reflexivity|]. split; [constructor|].
    split; [unfold calls; simpl; lia|]. split; [reflexivity|].
    right. left. reflexivity.
  - cbn [udp_request_loop]. rewrite io_bind_run.
    assert (Hcall : request_event host port packet (Call_send_udp host port packet))
      by (repeat split).
    destruct (network w (exchanges w)) as [| | |payload] eqn:Hnet.
    + (* the socket cannot be opened *)
      rewrite (send_udp_no_socket _ Hnet).
      eexists _, _, [(Call_send_udp host port packet)]. split; [reflexivity|]. cbn [network exchanges events].
      split; [reflexivity|]. split; [simpl; lia|]. split; [reflexivity|].
      split; [repeat constructor; exact Hcall|].
      split; [unfold calls; simpl; lia|]. split; [unfold backoffs, calls; simpl; lia|].
      left. reflexivity.
    + (* no data: sleep and go on *)
      rewrite send_udp_no_data by (rewrite Hnet; right; left; reflexivity).
      cbn [truthy]. rewrite io_bind_run. cbn [sleep network exchanges events].
      destruct (IH (World (network w) (S (exchanges w))
                      ((events w ++ [(Call_send_udp host port packet)]) ++ [Sleep (1 # 2)])))
        as (r & w' & new & Hrun & Hn & Hex & Hev & Hall & Hcalls & Hback & Hr).
      cbn [network exchanges events] in Hn, Hex, Hev, Hcalls, Hr.
      exists r, w', ((Call_send_udp host port packet) :: Sleep (1 # 2) :: new). rewrite Hrun.
      split; [reflexivity|]. split; [exact Hn|]. split; [simpl; lia|].
      split; [rewrite Hev, <- !app_assoc; reflexivity|].
      split; [repeat constructor; assumption|].
      split; [change (calls ((Call_send_udp host port packet) :: Sleep (1 # 2) :: new)) with (S (calls new)); lia|].
      split; [change (calls ((Call_send_udp host port packet) :: Sleep (1 # 2) :: new)) with (S (calls new));
              change (backoffs ((Call_send_udp host port packet) :: Sleep (1 # 2) :: new)) with (S (backoffs new));
              lia|].
      exact Hr.
    + rewrite send_udp_no_data by (rewrite Hnet; left; reflexivity).
      cbn [truthy]. rewrite io_bind_run. cbn [sleep network exchanges events].
      destruct (IH (World (network w) (S (exchanges w))
                      ((events w ++ [(Call_send_udp host port packet)]) ++ [Sleep (1 # 2)])))
        as (r & w' & new & Hrun & Hn & Hex & Hev & Hall & Hcalls & Hback & Hr).
      cbn [network exchanges events] in Hn, Hex, Hev, Hcalls, Hr.
      exists r, w', ((Call_send_udp host port packet) :: Sleep (1 # 2) :: new). rewrite Hrun.
      split; [reflexivity|]. split; [exact Hn|]. split; [simpl; lia|].
      split; [rewrite Hev, <- !app_assoc; reflexivity|].
      split; [repeat constructor; assumption|].
      split; [change (calls ((Call_send_udp host port packet) :: Sleep (1 # 2) :: new)) with (S (calls new)); lia|].
      split; [change (calls ((Call_send_udp host port packet) :: Sleep (1 # 2) :: new)) with (S (calls new));
              change (backoffs ((Call_send_udp host port packet) :: Sleep (1 # 2) :: new)) with (S (backoffs new));
              lia|].
      exact Hr.
    + destruct payload as [|b payload].
      * rewrite send_udp_no_data by (rewrite Hnet; right; right; reflexivity).
        cbn [truthy]. rewrite io_bind_run. cbn [sleep network exchanges events].
        destruct (IH (World (network w) (S (exchanges w))
                        ((events w ++ [(Call_send_udp host port packet)]) ++ [Sleep (1 # 2)])))
          as (r & w' & new & Hrun & Hn & Hex & Hev & Hall & Hcalls & Hback & Hr).
        cbn [network exchanges events] in Hn, Hex, Hev, Hcalls, Hr.
        exists r, w', ((Call_send_udp host port packet) :: Sleep (1 # 2) :: new). rewrite Hrun.
        split; [reflexivity|]. split; [exact Hn|]. split; [simpl; lia|].
        split; [rewrite Hev, <- !app_assoc; reflexivity|].
        split; [repeat constructor; assumption|].
        split; [change (calls ((Call_send_udp host port packet) :: Sleep (1 # 2) :: new)) with (S (calls new)); lia|].
        split; [change (calls ((Call_send_udp host port packet) :: Sleep (1 # 2) :: new)) with (S (calls new));
                change (backoffs ((Call_send_udp host port packet) :: Sleep (1 # 2) :: new)) with (S (backoffs new));
                lia|].
        exact Hr.
      * rewrite (send_udp_datagram _ _ _ _ _ Hnet).
        rewrite truthy_take by discriminate.
        eexists _, _, [(Call_send_udp host port packet)]. split; [reflexivity|]. cbn [network exchanges events].
        split; [reflexivity|]. split; [simpl; lia|]. split; [reflexivity|].
        split; [repeat constructor; exact Hcall|].
        split; [unfold calls; simpl; lia|].
        split; [unfold backoffs, calls; simpl; lia|].
        right. right. exists (b :: payload). split; [discriminate|].
        split; [|reflexivity].
        replace (S (exchanges w) - 1)%nat with (exchanges w) by lia. exact Hnet.
Qed.

(** X12.  On any network, [udp_request] leaves the network as it is, makes
    between zero and [retries] calls of [_send_udp], all of them to the same
    host and port with the same packet, sleeps 0.5 s at most once per call
    and does nothing else.  It raises nothing but [OSError]; what it returns
    is [b""] or the first 1024 bytes of the non-empty datagram received in
    its last call. *)
Theorem udp_request_bounded (retries : Z) (w : world) :
  exists r w' new,
    udp_request host port packet retries w = (r, w')
    /\ network w' = network w
    /\ (exchanges w <= exchanges w' <= exchanges w + Z.to_nat retries)%nat
    /\ events w' = events w ++ new
    /\ Forall (request_event host port packet) new
    /\ calls new = (exchanges w' - exchanges w)%nat
    /\ (backoffs new <= calls new)%nat
    /\ (r = Raised OSError
        \/ r = Returned []
        \/ exists payload,
             payload <> []
             /\ network w (exchanges w' - 1)%nat = Datagram payload
             /\ r = Returned (take 1024 payload)).
Proof.
  unfold udp_request.
  destruct (udp_request_loop_bounded retries (seqZ 0 retries) w)
    as (r & w' & new & H).
  rewrite length_seqZ in H. exists r, w', new. exact H.
Qed.

End MoreRetries.

Lemma udp_request_no_retries_witness :
  udp_request (str_lit "vento") 4000 [xfd; xfd] 0 (World silent_network 0 [])
  = (Returned [], World silent_network 0 []).
Proof.
  apply (udp_request_no_retries (str_lit "vento") 4000 [xfd; xfd] 0
           (World silent_network 0 [])).
  lia.
Defined.

Lemma udp_request_no_socket_witness :
  exists w',
    udp_request (str_lit "vento") 4000 [xfd; xfd] 3 (World no_socket_network 0 [])
    = (Raised OSError, w')
    /\ exchanges w' = (0 + 1 + 1)%nat
    /\ events w'
       = [] ++ failed_attempts (str_lit "vento") 4000 [xfd; xfd] 1
         ++ [Call_send_udp (str_lit "vento") 4000 [xfd; xfd]].
Proof.
  apply (udp_request_no_socket (str_lit "vento") 4000 [xfd; xfd] 3
           (World no_socket_network 0 []) 1).
  - vm_compute. lia.
  - intros j Hj. assert (j = 0%nat) as -> by lia. left. reflexivity.
  - reflexivity.
Defined.

(* ===================================================================== *)
(** * Further properties of the poll cycle                                *)
(* ===================================================================== *)

(** Every entry of a mapping that the parser returns fits its key. *)
Lemma parse_entries_fit (data : bytes) (result : gmap Z value) :
  parse_ventoexpert_response data = Returned result ->
  forall id v, result !! id = Some v -> entry_fits id v.
Proof.
  intros Hparse id v Hv.
  destruct (Z.ltb_spec (len data) 20) as [Hshort|Hlen].
  { rewrite (parse_short _ Hshort) in Hparse. injection Hparse as <-.
    rewrite lookup_empty in Hv. discriminate. }
  pose proof (index_from_spec data 0x06 0) as Hspec. fold (index data 0x06) in Hspec.
  destruct (index data 0x06) as [func_index|e|] eqn:Hidx; [| |contradiction].
  - rewrite (parse_accepted data func_index Hlen Hidx) in Hparse.
    injection Hparse as <-.
    apply store_lookup in Hv as [Hin | Hempty].
    + pose proof (decode_fields_fit _ (drop (Z.to_nat (func_index + 1)) data)
                    (Nat.le_refl _)) as Hfit.
      rewrite Forall_forall in Hfit. exact (Hfit _ Hin).
    + rewrite lookup_empty in Hempty. discriminate.
  - destruct Hspec as [-> _]. rewrite (parse_no_marker _ Hidx) in Hparse.
    injection Hparse as <-. rewrite lookup_empty in Hv. discriminate.
Qed.

(** The [try] block once the request is built, whatever the retrying request
    does. *)
Lemma update_body_run_any (self : VentoExpertCoordinator) (w w' : world)
    (packet : bytes) (r : outcome bytes) :
  build_read_packet (device_id self) (password self) (params self)
  = Returned packet ->
  udp_request (host self) (port self) packet default_retries w = (r, w') ->
  update_body self w
  = match r with
    | Returned data =>
        if negb (truthy data)
        then (Raised (UpdateFailed (Plain "Keine Antwort vom Gerät")), w')
        else (parse_ventoexpert_response data, w')
    | Raised e => (Raised e, w')
    | NoFuel => (NoFuel, w')
    end.
Proof.
  intros Hbuild Hrequest. unfold update_body.
  rewrite io_bind_run, pure_run, Hbuild.
  rewrite io_bind_run, Hrequest.
  destruct r as [data|e|]; [|reflexivity|reflexivity].
  destruct (truthy data); cbn [negb]; [|reflexivity].
  rewrite io_bind_run, pure_run.
  destruct (parse_ventoexpert_response data); reflexivity.
Qed.

Lemma update_body_not_built (self : VentoExpertCoordinator) (w : world) (e : exn) :
  build_read_packet (device_id self) (password self) (params self) = Raised e ->
  update_body self w = (Raised e, w).
Proof.
  intros Hbuild. unfold update_body.
  rewrite io_bind_run, pure_run, Hbuild. reflexivity.
Qed.

Lemma build_read_packet_cases (device_id password : str) (params : list Z) :
  (is_ascii device_id /\ is_ascii password
   /\ exists packet, build_read_packet device_id password params = Returned packet)
  \/ (~ (is_ascii device_id /\ is_ascii password)
      /\ build_read_packet device_id password params = Raised UnicodeEncodeError).
Proof.
  destruct (is_ascii_dec device_id) as [Hid|Hid].
  - destruct (is_ascii_dec password) as [Hpwd|Hpwd].
    + destruct (build_read_packet_frame device_id password params Hid Hpwd)
        as (lo & hi & E & _).
      left. split; [assumption|]. split; [assumption|]. eexists. exact E.
    + right. split; [intros [_ H]; contradiction|].
      apply build_read_packet_raises_password; assumption.
  - right. split; [intros [H _]; contradiction|].
    apply build_read_packet_raises_id; assumption.
Qed.

(** X13.  Whatever the configuration and the network, a poll cycle either
    returns a mapping or raises [UpdateFailed]; the exception that it wraps
    is [UnicodeEncodeError] (request not built), [OSError] (no socket) or the
    [UpdateFailed] raised for want of an answer. *)
Theorem async_update_data_raises_update_failed (self : VentoExpertCoordinator)
    (w : world) :
  exists w',
    (exists result, _async_update_data self w = (Returned result, w'))
    \/ (exists cause,
          _async_update_data self w
          = (Raised (UpdateFailed
                       (Formatted "Fehler beim Abrufen der Daten: " cause)), w')
          /\ (cause = UnicodeEncodeError
              \/ cause = OSError
              \/ cause = UpdateFailed (Plain "Keine Antwort vom Gerät"))).
Proof.
  unfold _async_update_data.
  destruct (build_read_packet_cases (device_id self) (password self) (params self))
    as [(_ & _ & packet & Hbuild) | (_ & Hbuild)].
  - destruct (udp_request_loop_bounded (host self) (port self) packet
                default_retries (seqZ 0 default_retries) w)
      as (r & w' & new & Hrun & _ & _ & _ & _ & _ & _ & Hr).
    fold (udp_request (host self) (port self) packet default_retries) in Hrun.
    rewrite (update_body_run_any self w w' packet r Hbuild Hrun).
    exists w'. destruct Hr as [-> | [-> | (payload & Hne & _ & ->)]].
    + right. exists OSError. split; [reflexivity|]. right. left. reflexivity.
    + right. eexists. split; [reflexivity|]. right. right. reflexivity.
    + left. rewrite (truthy_take _ Hne). cbn [negb].
      destruct (parse_returns (take 1024 payload)) as [result ->].
      exists result. reflexivity.
  - rewrite (update_body_not_built self w _ Hbuild).
    exists w. right. exists UnicodeEncodeError. split; [reflexivity|].
    left. reflexivity.
Qed.

(** X14.  When the device id or the password of the coordinator is not
    ASCII, the cycle raises [UpdateFailed] wrapping [UnicodeEncodeError]
    before anything is sent: the world is left as it was. *)
Theorem async_update_data_non_ascii (self : VentoExpertCoordinator) (w : world) :
  ~ (is_ascii (device_id self) /\ is_ascii (password self)) ->
  _async_update_data self w
  = (Raised (UpdateFailed
               (Formatted "Fehler beim Abrufen der Daten: " UnicodeEncodeError)),
     w).
Proof.
  intros Hnot. unfold _async_update_data.
  destruct (build_read_packet_cases (device_id self) (password self) (params self))
    as [(Hid & Hpwd & _) | (_ & Hbuild)].
  - exfalso. apply Hnot. split; assumption.
  - rewrite (update_body_not_built self w _ Hbuild). reflexivity.
Qed.

Lemma async_update_data_non_ascii_witness :
  _async_update_data umlaut_coordinator (World silent_network 0 [])
  = (Raised (UpdateFailed
               (Formatted "Fehler beim Abrufen der Daten: " UnicodeEncodeError)),
     World silent_network 0 []).
Proof.
  apply (async_update_data_non_ascii umlaut_coordinator (World silent_network 0 [])).
  intros [H _]. unfold umlaut_coordinator, is_ascii in H. cbn [device_id] in H.
  inversion H as [|? ? _ H1]. inversion H1 as [|? ? Hc _]. vm_compute in Hc.
  discriminate Hc.
Defined.

(** X15.  In a cycle whose request is built, at most three calls of
    [_send_udp] are made, each to the host and port of the coordinator with
    the frame built from its device id, password and parameter list; apart
    from these calls and sleeps of 0.5 s the world does not change. *)
Theorem async_update_data_traffic (self : VentoExpertCoordinator) (w : world)
    (packet : bytes) :
  build_read_packet (device_id self) (password self) (params self)
  = Returned packet ->
  exists r w' new,
    _async_update_data self w = (r, w')
    /\ network w' = network w
    /\ (exchanges w <= exchanges w' <= exchanges w + 3)%nat
    /\ events w' = events w ++ new
    /\ Forall (request_event (host self) (port self) packet) new
    /\ calls new = (exchanges w' - exchanges w)%nat.
Proof.
  intros Hbuild. unfold _async_update_data.
  destruct (udp_request_loop_bounded (host self) (port self) packet
              default_retries (seqZ 0 default_retries) w)
    as (r & w' & new & Hrun & Hnet & Hex & Hev & Hall & Hcalls & _ & _).
  fold (udp_request (host self) (port self) packet default_retries) in Hrun.
  rewrite (update_body_run_any self w w' packet r Hbuild Hrun).
  rewrite length_seqZ in Hex. change (Z.to_nat default_retries) with 3%nat in Hex.
  assert (Hw : forall o : outcome (gmap Z value),
             exists r',
               match o with
               | Raised err =>
                   (Raised (UpdateFailed
                              (Formatted "Fehler beim Abrufen der Daten: " err)),
                    w')
               | _ => (o, w')
               end = (r', w')).
  { intros [result|err|]; eexists; reflexivity. }
  destruct r as [data|e|].
  - destruct (truthy data); cbn [negb].
    + destruct (Hw (parse_ventoexpert_response data)) as [r' Hr'].
      exists r', w', new. split; [|repeat split; assumption || apply Hex].
      destruct (parse_ventoexpert_response data); exact Hr'.
    + eexists _, w', new. split; [reflexivity|].
      repeat split; assumption || apply Hex.
  - eexists _, w', new. split; [reflexivity|].
    repeat split; assumption || apply Hex.
  - eexists _, w', new. split; [reflexivity|].
    repeat split; assumption || apply Hex.
Qed.

Lemma async_update_data_traffic_witness :
  exists r w' new,
    _async_update_data default_coordinator (World silent_network 0 []) = (r, w')
    /\ network w' = silent_network
    /\ (0 <= exchanges w' <= 0 + 3)%nat
    /\ events w' = [] ++ new
    /\ Forall (request_event (str_lit "vento") 4000 default_packet) new
    /\ calls new = (exchanges w' - 0)%nat.
Proof.
  apply (async_update_data_traffic default_coordinator (World silent_network 0 [])
           default_packet).
  vm_compute. reflexivity.
Defined.

(** X16.  In a cycle whose request is built, when one of the three attempts
    is the first to receive a non-empty datagram, the cycle returns the
    mapping parsed from the first 1024 bytes of that datagram, after as many
    calls as attempts and no further one; every entry of the mapping fits its
    key. *)
Theorem async_update_data_answer (self : VentoExpertCoordinator) (w : world)
    (packet payload : bytes) (k : nat) :
  build_read_packet (device_id self) (password self) (params self)
  = Returned packet ->
  (k < 3)%nat ->
  (forall j, (j < k)%nat -> no_data (network w (exchanges w + j)%nat)) ->
  network w (exchanges w + k)%nat = Datagram payload ->
  payload <> [] ->
  exists result w',
    parse_ventoexpert_response (take 1024 payload) = Returned result
    /\ _async_update_data self w = (Returned result, w')
    /\ exchanges w' = (exchanges w + k + 1)%nat
    /\ (forall id v, result !! id = Some v -> entry_fits id v).
Proof.
  intros Hbuild Hk Hno Hdata Hne.
  destruct (udp_request_loop_data (host self) (port self) packet default_retries k
              (seqZ 0 default_retries) w payload)
    as (w' & Hrun & _ & Hex & _);
    [rewrite length_seqZ; exact Hk | exact Hno | exact Hdata | exact Hne |].
  fold (udp_request (host self) (port self) packet default_retries) in Hrun.
  destruct (parse_returns (take 1024 payload)) as [result Hparse].
  exists result, w'. split; [exact Hparse|].
  split; [|split; [exact Hex | exact (parse_entries_fit _ _ Hparse)]].
  unfold _async_update_data.
  rewrite (update_body_run_any self w w' packet _ Hbuild Hrun).
  rewrite (truthy_take _ Hne). cbn [negb]. rewrite Hparse. reflexivity.
Qed.

Lemma async_update_data_answer_witness :
  exists result w',
    parse_ventoexpert_response (take 1024 sample_response) = Returned result
    /\ _async_update_data default_coordinator
         (World (third_try_network sample_response) 0 [])
       = (Returned result, w')
    /\ exchanges w' = (0 + 2 + 1)%nat
    /\ (forall id v, result !! id = Some v -> entry_fits id v).
Proof.
  apply (async_update_data_answer default_coordinator
           (World (third_try_network sample_response) 0 [])
           default_packet sample_response 2).
  - vm_compute. reflexivity.
  - lia.
  - intros j Hj. cbn [network exchanges].
    destruct j as [|[|j]]; [left; reflexivity | left; reflexivity | lia].
  - reflexivity.
  - discriminate.
Defined.

(** X17.  In a cycle whose request is built, when none of the three
    attempts yields data, the cycle raises [UpdateFailed] for want of an
    answer after exactly three calls of [_send_udp], each followed by a sleep
    of 0.5 s. *)
Theorem async_update_data_no_answer (self : VentoExpertCoordinator) (w : world)
    (packet : bytes) :
  build_read_packet (device_id self) (password self) (params self)
  = Returned packet ->
  (forall j, (j < 3)%nat -> no_data (network w (exchanges w + j)%nat)) ->
  exists w',
    _async_update_data self w
    = (Raised (UpdateFailed
                 (Formatted "Fehler beim Abrufen der Daten: "
                    (UpdateFailed (Plain "Keine Antwort vom Gerät")))), w')
    /\ exchanges w' = (exchanges w + 3)%nat
    /\ events w'
       = events w ++ failed_attempts (host self) (port self) packet 3.
Proof.
  intros Hbuild Hno.
  destruct (udp_request_loop_no_data (host self) (port self) packet
              default_retries (seqZ 0 default_retries) w)
    as (w' & Hrun & _ & Hex & Hev);
    [rewrite length_seqZ; exact Hno |].
  fold (udp_request (host self) (port self) packet default_retries) in Hrun.
  rewrite length_seqZ in Hex, Hev.
  exists w'. split; [|split; [exact Hex | exact Hev]].
  unfold _async_update_data.
  rewrite (update_body_run_any self w w' packet _ Hbuild Hrun). reflexivity.
Qed.

Lemma async_update_data_no_answer_witness :
  exists w',
    _async_update_data default_coordinator (World silent_network 0 [])
    = (Raised (UpdateFailed
                 (Formatted "Fehler beim Abrufen der Daten: "
                    (UpdateFailed (Plain "Keine Antwort vom Gerät")))), w')
    /\ exchanges w' = (0 + 3)%nat
    /\ events w'
       = [] ++ failed_attempts (str_lit "vento") 4000 default_packet 3.
Proof.
  apply (async_update_data_no_answer default_coordinator
           (World silent_network 0 []) default_packet).
  - vm_compute. reflexivity.
  - intros j Hj. left. reflexivity.
Defined.

(* ===================================================================== *)
(** * Properties of the sensors                                           *)
(* ===================================================================== *)

Lemma available_false (self : sensor) (data : gmap Z value) :
  available self data = false <-> data !! param self = None.
Proof.
  unfold available. rewrite bool_decide_eq_false, <- eq_None_not_Some.
  reflexivity.
Qed.

Lemma mapping_get_cases (pairs : list (Z * string)) (raw : pyobj)
    (default : string) :
  mapping_get (list_to_map pairs) raw default = default
  \/ mapping_get (list_to_map pairs) raw default ∈ pairs.*2.
Proof.
  unfold mapping_get. destruct raw as [|n| |]; try (left; reflexivity).
  destruct (list_to_map pairs !! n) as [s|] eqn:E; [|left; reflexivity].
  right. apply elem_of_list_to_map_2 in E.
  apply list_elem_of_fmap. exists (n, s). split; [reflexivity | exact E].
Qed.

(** X18.  A sensor of a class with texts always shows a text: one of the
    texts of its class or "Unbekannt".  It shows "Unbekannt", and not
    [None], when its parameter is missing from the data, and also when the
    value is a tuple. *)
Theorem text_sensor_native_value (self : sensor) (data : gmap Z value) :
  is_text_class (sensor_type self) = true ->
  exists s,
    native_value self data = PyStr s
    /\ (s ∈ labels (sensor_type self) \/ s = "Unbekannt"%string)
    /\ (available self data = false -> s = "Unbekannt"%string)
    /\ (forall items, data !! param self = Some (VTuple items) ->
                      s = "Unbekannt"%string).
Proof.
  intros Htext. unfold native_value, _format_value.
  assert (Hmiss : forall mapping,
             available self data = false ->
             mapping_get mapping (data_get data (param self)) "Unbekannt"
             = "Unbekannt"%string).
  { intros mapping Hav. apply available_false in Hav.
    unfold data_get. rewrite Hav. reflexivity. }
  assert (Htuple : forall mapping items,
             data !! param self = Some (VTuple items) ->
             mapping_get mapping (data_get data (param self)) "Unbekannt"
             = "Unbekannt"%string).
  { intros mapping items Hv. unfold data_get. rewrite Hv. reflexivity. }
  destruct (sensor_type self); try discriminate Htext; cbv zeta;
    eexists; (split; [reflexivity|]);
    (split; [|split; [apply Hmiss | apply Htuple]]);
    match goal with
    | |- mapping_get (list_to_map ?pairs) ?raw ?d ∈ _ \/ _ =>
        destruct (mapping_get_cases pairs raw d) as [H|H];
        [right; exact H | left; exact H]
    end.
Qed.

Lemma text_sensor_native_value_witness :
  exists s,
    native_value (Sensor VentoExpertStageSensor "VentoExpert Lüftungsstufe" 0x0002)
      {[ 0x0002 := VInt 255 ]}
    = PyStr s
    /\ (s ∈ labels VentoExpertStageSensor \/ s = "Unbekannt"%string)
    /\ (available (Sensor VentoExpertStageSensor "VentoExpert Lüftungsstufe" 0x0002)
          {[ 0x0002 := VInt 255 ]} = false -> s = "Unbekannt"%string)
    /\ (forall items,
          ({[ 0x0002 := VInt 255 ]} : gmap Z value) !! 0x0002
          = Some (VTuple items) ->
          s = "Unbekannt"%string).
Proof.
  apply (text_sensor_native_value
           (Sensor VentoExpertStageSensor "VentoExpert Lüftungsstufe" 0x0002)
           {[ 0x0002 := VInt 255 ]}).
  reflexivity.
Defined.

(** X19.  A sensor of a class without texts shows the stored value as it
    is, and shows [None] exactly when it is not available. *)
Theorem raw_sensor_native_value (self : sensor) (data : gmap Z value) :
  is_text_class (sensor_type self) = false ->
  (available self data = false <-> native_value self data = PyNone)
  /\ (forall v, data !! param self = Some v ->
                available self data = true
                /\ native_value self data = obj_of_value v).
Proof.
  intros Hraw.
  assert (E : native_value self data = data_get data (param self))
    by (unfold native_value, _format_value;
        destruct (sensor_type self); try discriminate Hraw; reflexivity).
  rewrite E, available_false. unfold data_get. split.
  - destruct (data !! param self) as [v|].
    + split; [discriminate | destruct v; discriminate].
    + split; reflexivity.
  - intros v Hv. rewrite Hv. split; [|reflexivity].
    unfold available. apply bool_decide_eq_true. rewrite Hv. eexists. reflexivity.
Qed.

Lemma raw_sensor_native_value_witness :
  (available (Sensor VentoExpertFanSensor "VentoExpert Ventilator 1" 0x004A)
     {[ 0x004A := VInt 300 ]} = false
   <-> native_value (Sensor VentoExpertFanSensor "VentoExpert Ventilator 1" 0x004A)
         {[ 0x004A := VInt 300 ]} = PyNone)
  /\ (forall v,
        ({[ 0x004A := VInt 300 ]} : gmap Z value) !! 0x004A = Some v ->
        available (Sensor VentoExpertFanSensor "VentoExpert Ventilator 1" 0x004A)
          {[ 0x004A := VInt 300 ]} = true
        /\ native_value (Sensor VentoExpertFanSensor "VentoExpert Ventilator 1" 0x004A)
             {[ 0x004A := VInt 300 ]} = obj_of_value v).
Proof.
  apply (raw_sensor_native_value
           (Sensor VentoExpertFanSensor "VentoExpert Ventilator 1" 0x004A)
           {[ 0x004A := VInt 300 ]}).
  reflexivity.
Defined.

Lemma shown_after_parse (self : sensor) (data : gmap Z value) :
  (forall id v, data !! id = Some v -> entry_fits id v) ->
  param self <> 0x64 ->
  shown_ok self (native_value self data).
Proof.
  intros Hfit H64. unfold shown_ok.
  destruct (is_text_class (sensor_type self)) eqn:Hcls.
  - unfold native_value, _format_value.
    destruct (sensor_type self); try discriminate Hcls; eexists; reflexivity.
  - assert (E : native_value self data = data_get data (param self))
      by (unfold native_value, _format_value;
          destruct (sensor_type self); try discriminate Hcls; reflexivity).
    rewrite E. unfold data_get.
    destruct (data !! param self) as [v|] eqn:Hv; [|left; reflexivity].
    right. destruct (Hfit _ _ Hv) as (_ & _ & H4 & H1).
    destruct ((param self =? 0x4A) || (param self =? 0x4B)) eqn:E4.
    + apply orb_true_iff in E4. rewrite !Z.eqb_eq in E4.
      destruct (H4 E4) as (n & -> & Hn). exists n. split; [reflexivity | exact Hn].
    + apply orb_false_iff in E4. rewrite !Z.eqb_neq in E4. destruct E4 as [N4a N4b].
      destruct (H1 H64 N4a N4b) as (n & -> & Hn).
      exists n. split; [reflexivity | exact Hn].
Qed.

(** X20.  Whatever bytes the device answers, each sensor that
    [async_setup_entry] creates shows, on the parsed mapping, a text (the
    four classes with texts), or [None] or an integer: at most 65535 for the
    two fan sensors and at most 255 for the two humidity sensors.  None of
    them ever shows a tuple. *)
Theorem sensors_after_parse (response : bytes) (data : gmap Z value) :
  parse_ventoexpert_response response = Returned data ->
  Forall (fun self => shown_ok self (native_value self data)
                      /\ forall items, native_value self data <> PyTuple items)
         sensors.
Proof.
  intros Hparse. pose proof (parse_entries_fit _ _ Hparse) as Hfit.
  assert (H : forall self, param self <> 0x64 ->
                           shown_ok self (native_value self data)
                           /\ forall items, native_value self data <> PyTuple items).
  { intros self H64. pose proof (shown_after_parse self data Hfit H64) as Hok.
    split; [exact Hok|]. intros items Hitems. unfold shown_ok in Hok.
    rewrite Hitems in Hok.
    destruct (is_text_class (sensor_type self)).
    - destruct Hok as [s Hs]. discriminate Hs.
    - destruct Hok as [Hs | (n & Hs & _)]; discriminate Hs. }
  unfold sensors.
  repeat (constructor; [apply H; cbn [param]; lia|]).
  constructor.
Qed.

Lemma sensors_after_parse_witness :
  Forall (fun self =>
            shown_ok self (native_value self (store (decode_fields
              (drop (Z.to_nat (16 + 1)) sample_response)) ∅))
            /\ forall items,
                 native_value self (store (decode_fields
                   (drop (Z.to_nat (16 + 1)) sample_response)) ∅)
                 <> PyTuple items)
         sensors.
Proof.
  apply (sensors_after_parse sample_response).
  vm_compute. reflexivity.
Defined.

(** X21.  The parser stores no key outside [0, 255]: whatever the device
    answers, a sensor whose parameter id does not fit one byte is not
    available on the parsed mapping, although [build_read_packet] can ask
    for such an id. *)
Theorem wide_param_never_available (response : bytes) (data : gmap Z value)
    (self : sensor) :
  parse_ventoexpert_response response = Returned data ->
  ~ (0 <= param self <= 255) ->
  available self data = false /\ data_get data (param self) = PyNone.
Proof.
  intros Hparse Hwide.
  assert (Hnone : data !! param self = None).
  { destruct (data !! param self) as [v|] eqn:Hv; [|reflexivity].
    exfalso. apply Hwide. exact (proj1 (parse_entries_fit _ _ Hparse _ _ Hv)). }
  split; [apply available_false; exact Hnone|].
  unfold data_get. rewrite Hnone. reflexivity.
Qed.

Lemma wide_param_never_available_witness :
  available (Sensor VentoExpertBaseSensor "wide" 0x0102)
    (store (decode_fields (drop (Z.to_nat (16 + 1)) sample_response)) ∅) = false
  /\ data_get (store (decode_fields (drop (Z.to_nat (16 + 1)) sample_response)) ∅)
       (param (Sensor VentoExpertBaseSensor "wide" 0x0102)) = PyNone.
Proof.
  apply (wide_param_never_available sample_response _
           (Sensor VentoExpertBaseSensor "wide" 0x0102)).
  - vm_compute. reflexivity.
  - cbn [param]. lia.
Defined.
